(** * The Irita service tracker of core/services/irita_subscriber.go

    A shallow embedding of [IritaServiceTracker] and [Service]: the
    subscription registry, the event matcher and request resolver of
    [GetServiceResquest], the per-initiator goroutine started by
    [Service.Subscribe], and the tracker's lifecycle operations.

    Go state is threaded explicitly through a small state monad that also
    carries panics.  Goroutines are interleaved by an explicit schedule:
    every label of a schedule is either a call of the tracker's API or one
    atomic step of one goroutine. *)

From Stdlib Require Import ZArith Ascii String.
From stdpp Require Import base strings gmap list.

Local Open Scope string_scope.
Local Open Scope list_scope.

(** Go's [error]: [None] is [nil], [Some msg] carries [err.Error()]. *)
Abbreviation error := (option string).

(** ** irita-sdk-go/types *)

Module types.

Record Attribute := { Key : string; Value : string }.

Definition Attributes := list Attribute.

Record Event := { Type_ : string; Attributes_ : Attributes }.

Definition Events := list Event.

(** [Attributes.GetValue]: the value of the first attribute carrying the
    key, the empty string when there is none. *)
Fixpoint GetValue (attrs : Attributes) (key : string) : string :=
  match attrs with
  | [] => ""
  | attr :: rest =>
      if String.eqb (Key attr) key then Value attr else GetValue rest key
  end.

(** [Events.Filter]: the events of the given type, in order. *)
Definition Filter (es : Events) (typ : string) : Events :=
  List.filter (fun e => String.eqb (Type_ e) typ) es.

(** One condition [NewCond(event, attr).EQ(value)] of a query. *)
Record Cond := { cond_event : string; cond_attr : string; cond_eq : string }.

(** [EventQueryBuilder]: the conditions added so far. *)
Definition EventQueryBuilder := list Cond.

Definition NewEventQueryBuilder : EventQueryBuilder := [].

Definition AddCondition (b : EventQueryBuilder) (c : Cond) : EventQueryBuilder :=
  b ++ [c].

(** [types.Subscription]: the handle of one open subscription; the tracker
    only stores it and hands it back to [Unsubscribe]. *)
Record Subscription := { sub_ID : string; sub_Query : EventQueryBuilder }.

End types.

(** ** irita-sdk-go/modules/service *)

Module service.

(** [QueryServiceRequestResponse]: an opaque payload for the tracker, which
    never looks inside it.  [zero] is Go's zero value of the struct. *)
Record QueryServiceRequestResponse := { req_ID : string; req_Input : string }.

Definition zero : QueryServiceRequestResponse :=
  {| req_ID := ""; req_Input := "" |}.

End service.

(** ** core/store/models *)

Module models.

Record Initiator := {
  Type_ : string;
  IritaServiceName : string;
  IritaServiceProvider : string;
}.

(** A job specification.  [ID] stands for [job.ID.String()], the only way
    the tracker uses the identifier.  [StartAt] and [EndAt] are the
    optional bounds of the activity window. *)
Record JobSpec := {
  ID : string;
  Initiators : list Initiator;
  StartAt : option Z;
  EndAt : option Z;
}.

(** Modelled from the spec: [models.InitiatorIritaLog], the initiator kind
    of this tracker, is declared outside the tracker's file. *)
Definition InitiatorIritaLog : string := "iritalog".

(** Modelled from the spec: [JobSpec.InitiatorsFor] is declared outside the
    tracker's file; it lists the job's interests of the given kind. *)
Definition InitiatorsFor (j : JobSpec) (typ : string) : list Initiator :=
  List.filter (fun i => String.eqb (Type_ i) typ) (Initiators j).

(** Modelled from the spec: [JobSpec.Started] is declared outside the
    tracker's file; an open-ended window has started at any time. *)
Definition Started (j : JobSpec) (now : Z) : bool :=
  match StartAt j with
  | None => true
  | Some t => (t <=? now)%Z
  end.

(** Modelled from the spec: [JobSpec.Ended] is declared outside the
    tracker's file; an open-ended window never ends. *)
Definition Ended (j : JobSpec) (now : Z) : bool :=
  match EndAt j with
  | None => false
  | Some t => (t <? now)%Z
  end.

(** [JobRun]: only its identifier ([GetID().String()]) is used. *)
Record JobRun := { run_ID : string }.

Definition GetID (r : JobRun) : string := run_ID r.

End models.

(** ** core/store *)

Module store.

(** [store.ServiceRequset], the value stashed per run. *)
Record ServiceRequset := {
  RequestResponse : service.QueryServiceRequestResponse;
  Provider : string;
}.

End store.

(** ** External collaborators *)

(** Pure library functions the tracker calls: bech32 decoding and encoding
    of account addresses, and [json.Unmarshal] into a [[]string].  Each
    returns what the Go function leaves in its result, next to the error
    that the tracker discards. *)
Class Extern := {
  AccAddress : Type;
  AccAddressFromBech32 : string -> AccAddress * error;
  AccAddress_String : AccAddress -> string;
  json_Unmarshal : string -> list string * error;
}.

(** [sdk.IRITAClient], with the client's own state passed explicitly. *)
Class IRITAClient (C : Type) := {
  SubscribeNewBlock :
    types.EventQueryBuilder -> C -> (types.Subscription * error) * C;
  Unsubscribe : types.Subscription -> C -> error * C;
  QueryServiceRequest :
    string -> C -> (service.QueryServiceRequestResponse * error) * C;
}.

(** The [RunManager] interface: [Create] returns the new run ([inl]) or an
    error ([inr]). *)
Class RunManager (R : Type) := {
  Create : string -> models.Initiator -> R -> (models.JobRun + string) * R;
}.

(** ** Channels and goroutines *)

(** The state of [Service.done]: the zero value of the field, the channel
    made by [Service.Start], and that channel once closed. *)
Inductive chan := chan_nil | chan_open | chan_closed.

(** Where the goroutine running [Service.Subscribe] stands. *)
Inductive pc :=
| AtSubscribe                                 (* before [SubscribeNewBlock] *)
| AtAddSubscription (sub : types.Subscription) (* before [addSubscription] *)
| AtSelect (sub : types.Subscription)          (* at the [select] of the loop *)
| Returned.                                   (* the function has returned *)

Record Goroutine := {
  g_initiator : models.Initiator;
  g_job : models.JobSpec;
  g_pc : pc;
}.

(** The case a [select] takes: a request received on [ch], together with the
    value [time.Now()] returns in that iteration, or a receive on [done]. *)
Inductive SelectCase :=
| RecvRequest (request : service.QueryServiceRequestResponse) (now : Z)
| RecvDone.

(** Calls to collaborators, recorded in the order they are made. *)
Inductive Call :=
| CallSubscribeNewBlock (q : types.EventQueryBuilder)
| CallUnsubscribe (sub : types.Subscription)
| CallQueryServiceRequest (reqID : string)
| CallCreate (jobID : string) (initr : models.Initiator)
| CallAddToMemory (runID : string) (sr : store.ServiceRequset)
| CallLoggerError (msg : string)
| CallGaugeSet (n : Z)
| CallPrintln (msg : string).

(** ** The state of the process *)

(** Everything the tracker reads or writes: the fields of
    [IritaServiceTracker] and [Service], the package-level gauge
    [numberJobSubscriptions], the side-store behind [store.AddToMemory], the
    collaborators' own states, the goroutines spawned so far and the record
    of the calls made. *)
Record World (C R : Type) := {
  started : bool;
  store_jobs : list models.JobSpec;
  jobSubscriptions : gmap string types.Subscription;
  done : chan;
  numberJobSubscriptions : Z;
  memory : gmap string store.ServiceRequset;
  client : C;
  runManager : R;
  goroutines : list (Goroutine * list service.QueryServiceRequestResponse);
  calls : list Call;
}.

Arguments started {C R} _.
Arguments store_jobs {C R} _.
Arguments jobSubscriptions {C R} _.
Arguments done {C R} _.
Arguments numberJobSubscriptions {C R} _.
Arguments memory {C R} _.
Arguments client {C R} _.
Arguments runManager {C R} _.
Arguments goroutines {C R} _.
Arguments calls {C R} _.

Section Setters.
Context {C R : Type}.
Implicit Types w : World C R.

Definition set_started (b : bool) w : World C R :=
  {| started := b; store_jobs := store_jobs w;
     jobSubscriptions := jobSubscriptions w; done := done w;
     numberJobSubscriptions := numberJobSubscriptions w;
     memory := memory w; client := client w; runManager := runManager w;
     goroutines := goroutines w; calls := calls w |}.

Definition set_jobSubscriptions (m : gmap string types.Subscription) w
  : World C R :=
  {| started := started w; store_jobs := store_jobs w;
     jobSubscriptions := m; done := done w;
     numberJobSubscriptions := numberJobSubscriptions w;
     memory := memory w; client := client w; runManager := runManager w;
     goroutines := goroutines w; calls := calls w |}.

Definition set_done (d : chan) w : World C R :=
  {| started := started w; store_jobs := store_jobs w;
     jobSubscriptions := jobSubscriptions w; done := d;
     numberJobSubscriptions := numberJobSubscriptions w;
     memory := memory w; client := client w; runManager := runManager w;
     goroutines := goroutines w; calls := calls w |}.

Definition set_numberJobSubscriptions (n : Z) w : World C R :=
  {| started := started w; store_jobs := store_jobs w;
     jobSubscriptions := jobSubscriptions w; done := done w;
     numberJobSubscriptions := n;
     memory := memory w; client := client w; runManager := runManager w;
     goroutines := goroutines w; calls := calls w |}.

Definition set_memory (m : gmap string store.ServiceRequset) w : World C R :=
  {| started := started w; store_jobs := store_jobs w;
     jobSubscriptions := jobSubscriptions w; done := done w;
     numberJobSubscriptions := numberJobSubscriptions w;
     memory := m; client := client w; runManager := runManager w;
     goroutines := goroutines w; calls := calls w |}.

Definition set_client (c : C) w : World C R :=
  {| started := started w; store_jobs := store_jobs w;
     jobSubscriptions := jobSubscriptions w; done := done w;
     numberJobSubscriptions := numberJobSubscriptions w;
     memory := memory w; client := c; runManager := runManager w;
     goroutines := goroutines w; calls := calls w |}.

Definition set_runManager (r : R) w : World C R :=
  {| started := started w; store_jobs := store_jobs w;
     jobSubscriptions := jobSubscriptions w; done := done w;
     numberJobSubscriptions := numberJobSubscriptions w;
     memory := memory w; client := client w; runManager := r;
     goroutines := goroutines w; calls := calls w |}.

Definition set_goroutines
    (gs : list (Goroutine * list service.QueryServiceRequestResponse)) w
  : World C R :=
  {| started := started w; store_jobs := store_jobs w;
     jobSubscriptions := jobSubscriptions w; done := done w;
     numberJobSubscriptions := numberJobSubscriptions w;
     memory := memory w; client := client w; runManager := runManager w;
     goroutines := gs; calls := calls w |}.

Definition set_calls (cs : list Call) w : World C R :=
  {| started := started w; store_jobs := store_jobs w;
     jobSubscriptions := jobSubscriptions w; done := done w;
     numberJobSubscriptions := numberJobSubscriptions w;
     memory := memory w; client := client w; runManager := runManager w;
     goroutines := goroutines w; calls := cs |}.

End Setters.

(** ** The monad of tracker code *)

(** A computation runs to a value and a new state, panics, or is not
    enabled in the state it starts from (a receive on a channel nobody is
    ready to send on). *)
Inductive Res (W A : Type) :=
| Ok (a : A) (w : W)
| Panic (msg : string) (w : W)
| Blocked.

Arguments Ok {W A} _ _.
Arguments Panic {W A} _ _.
Arguments Blocked {W A}.

Definition M (W A : Type) : Type := W -> Res W A.

Section Monad.
Context {W : Type}.

Definition ret {A} (a : A) : M W A := fun w => Ok a w.

Definition bind {A B} (m : M W A) (k : A -> M W B) : M W B :=
  fun w =>
    match m w with
    | Ok a w' => k a w'
    | Panic msg w' => Panic msg w'
    | Blocked => Blocked
    end.

Definition gets {A} (f : W -> A) : M W A := fun w => Ok (f w) w.

Definition modify (f : W -> W) : M W unit := fun w => Ok tt (f w).

Definition panic {A} (msg : string) : M W A := fun w => Panic msg w.

Definition blocked {A} : M W A := fun _ => Blocked.

(** [for _, x := range l { f x }] *)
Fixpoint range {A} (l : list A) (f : A -> M W unit) : M W unit :=
  match l with
  | [] => ret tt
  | x :: rest => bind (f x) (fun _ => range rest f)
  end.

End Monad.

#[global] Instance M_ret {W} : MRet (M W) := @ret W.
#[global] Instance M_bind {W} : MBind (M W) := fun A B k m => bind m k.

Section Primitives.
Context {C R : Type} `{!IRITAClient C} `{!RunManager R}.
#[local] Abbreviation W := (World C R).

Definition record (c : Call) : M W unit :=
  modify (fun w => set_calls (calls w ++ [c]) w).

(** [s.Client.SubscribeNewBlock(builder, callback)] *)
Definition Client_SubscribeNewBlock (builder : types.EventQueryBuilder)
  : M W (types.Subscription * error) :=
  record (CallSubscribeNewBlock builder);;
  c ← gets client;
  let '(r, c') := SubscribeNewBlock builder c in
  modify (set_client c');;
  mret r.

(** [s.Client.Unsubscribe(sub)] *)
Definition Client_Unsubscribe (sub : types.Subscription) : M W error :=
  record (CallUnsubscribe sub);;
  c ← gets client;
  let '(r, c') := Unsubscribe sub c in
  modify (set_client c');;
  mret r.

(** [s.Client.Service.QueryServiceRequest(reqID)] *)
Definition Client_QueryServiceRequest (reqID : string)
  : M W (service.QueryServiceRequestResponse * error) :=
  record (CallQueryServiceRequest reqID);;
  c ← gets client;
  let '(r, c') := QueryServiceRequest reqID c in
  modify (set_client c');;
  mret r.

(** [s.RunManager.Create(job.ID, &initiator, nil, &models.RunRequest{})] *)
Definition RunManager_Create (jobID : string) (initr : models.Initiator)
  : M W (models.JobRun + string) :=
  record (CallCreate jobID initr);;
  r ← gets runManager;
  let '(res, r') := Create jobID initr r in
  modify (set_runManager r');;
  mret res.

(** [numberJobSubscriptions.Set(v)] *)
Definition numberJobSubscriptions_Set (v : Z) : M W unit :=
  record (CallGaugeSet v);;
  modify (set_numberJobSubscriptions v).

(** [logger.Error(msg)] *)
Definition logger_Error (msg : string) : M W unit :=
  record (CallLoggerError msg).

(** [println(msg)] *)
Definition println (msg : string) : M W unit :=
  record (CallPrintln msg).

(** Modelled from the spec: [store.AddToMemory] is declared outside the
    tracker's file; it stashes the request under the run identifier. *)
Definition store_AddToMemory (runID : string) (sr : store.ServiceRequset)
  : M W unit :=
  record (CallAddToMemory runID sr);;
  modify (fun w => set_memory (<[runID := sr]> (memory w)) w).

(** [close(s.done)]: closing a nil or an already closed channel panics. *)
Definition close_done : M W unit :=
  d ← gets done;
  match d with
  | chan_open => modify (set_done chan_closed)
  | chan_closed => panic "close of closed channel"
  | chan_nil => panic "close of nil channel"
  end.

(** [go f(...)]: the new goroutine is appended, with nothing waiting to be
    sent on its channel. *)
Definition go (g : Goroutine) : M W unit :=
  modify (fun w => set_goroutines (goroutines w ++ [(g, [])]) w).

End Primitives.

(** ** [Service] *)

Module Service.
Section Service.
Context `{Extern} {C R : Type} `{!IRITAClient C} `{!RunManager R}.
#[local] Abbreviation W := (World C R).

Definition Start : M W error :=
  modify (set_done chan_open);;
  mret None.

Definition Stop : M W unit := close_done.

Definition AddJob (job : models.JobSpec) : M W unit :=
  range (models.InitiatorsFor job models.InitiatorIritaLog)
    (fun initiator =>
       go {| g_initiator := initiator; g_job := job; g_pc := AtSubscribe |}).

(** The body runs as one step: the map is read, the key deleted and the
    gauge set while [jobsMutex] is held. *)
Definition RemoveJob (ID : string) : M W error :=
  sub ← gets (fun w => jobSubscriptions w !! ID);
  modify (fun w => set_jobSubscriptions (delete ID (jobSubscriptions w)) w);;
  n ← gets (fun w => size (jobSubscriptions w));
  numberJobSubscriptions_Set (Z.of_nat n);;
  match sub with
  | None =>
      mret (Some ("JobSubscriber#RemoveJob: job " +:+ ID +:+ " not found"))
  | Some sub =>
      _ ← Client_Unsubscribe sub;
      mret None
  end.

Definition addSubscription (jobID : string) (sub : types.Subscription)
  : M W unit :=
  modify (fun w =>
    set_jobSubscriptions (<[jobID := sub]> (jobSubscriptions w)) w).

(** First loop of [GetServiceResquest], over the filtered events; [ids] is
    the slice built so far. *)
Fixpoint GetServiceResquest_ids (events : types.Events)
    (serviceName : string) (provider : AccAddress) (ids : list string)
  : list string :=
  match events with
  | [] => ids
  | e :: rest =>
      let svcName := types.GetValue (types.Attributes_ e) "service_name" in
      let prov := types.GetValue (types.Attributes_ e) "provider" in
      if String.eqb svcName serviceName
         && String.eqb prov (AccAddress_String provider)
      then
        let reqIDsStr := types.GetValue (types.Attributes_ e) "requests" in
        let '(idsTemp, _) := json_Unmarshal reqIDsStr in
        GetServiceResquest_ids rest serviceName provider (ids ++ idsTemp)
      else GetServiceResquest_ids rest serviceName provider ids
  end.

(** Second loop of [GetServiceResquest]; [requests] is the slice built so
    far. *)
Fixpoint GetServiceResquest_requests (ids : list string)
    (requests : list service.QueryServiceRequestResponse)
  : M W (list service.QueryServiceRequestResponse) :=
  match ids with
  | [] => mret requests
  | reqID :: rest =>
      '(request, _) ← Client_QueryServiceRequest reqID;
      GetServiceResquest_requests rest (requests ++ [request])
  end.

Definition GetServiceResquest (events : types.Events)
    (serviceName : string) (provider : AccAddress)
  : M W (list service.QueryServiceRequestResponse) :=
  let ids :=
    GetServiceResquest_ids
      (types.Filter events "new_batch_request_provider")
      serviceName provider [] in
  GetServiceResquest_requests ids [].

(** [Subscribe], up to the registration: the query, the subscription and
    the panic when it cannot be opened. *)
Definition Subscribe_builder (initiator : models.Initiator)
  : types.EventQueryBuilder :=
  types.AddCondition
    (types.AddCondition types.NewEventQueryBuilder
       {| types.cond_event := "new_batch_request_provider";
          types.cond_attr := "provider";
          types.cond_eq := models.IritaServiceProvider initiator |})
    {| types.cond_event := "new_batch_request";
       types.cond_attr := "service_name";
       types.cond_eq := models.IritaServiceName initiator |}.

Definition Subscribe_open (initiator : models.Initiator)
  : M W types.Subscription :=
  '(sub, err) ← Client_SubscribeNewBlock (Subscribe_builder initiator);
  match err with
  | Some e => panic e
  | None => mret sub
  end.

(** The callback handed to [SubscribeNewBlock]: the requests it sends on
    [ch], one after the other, for one block. *)
Definition Subscribe_callback (initiator : models.Initiator)
    (events : types.Events)
  : M W (list service.QueryServiceRequestResponse) :=
  let providerAcc :=
    fst (AccAddressFromBech32 (models.IritaServiceProvider initiator)) in
  GetServiceResquest events (models.IritaServiceName initiator) providerAcc.

(** One iteration of the [for { select { ... } }] of [Subscribe], for the
    case the [select] takes.  The result is [false] when the iteration
    executes [return], [true] when the loop goes on to its next
    iteration. *)
Definition Subscribe_select (initiator : models.Initiator)
    (job : models.JobSpec) (sub : types.Subscription) (c : SelectCase)
  : M W bool :=
  match c with
  | RecvRequest request now =>
      if negb (models.Started job now) || models.Ended job now
      then mret false
      else
        res ← RunManager_Create (models.ID job) initiator;
        match res with
        | inr err =>
            logger_Error err;;
            mret false
        | inl jobRun =>
            store_AddToMemory (models.GetID jobRun)
              {| store.RequestResponse := request;
                 store.Provider := models.IritaServiceProvider initiator |};;
            mret true
        end
  | RecvDone =>
      _ ← Client_Unsubscribe sub;
      println "done";;
      mret true
  end.

End Service.
End Service.

(** ** [IritaServiceTracker] *)

Module IritaServiceTracker.
Section IritaServiceTracker.
Context `{Extern} {C R : Type} `{!IRITAClient C} `{!RunManager R}.
#[local] Abbreviation W := (World C R).

Definition addJob (job : models.JobSpec) : M W unit := Service.AddJob job.

Fixpoint Jobs_visit (jobs : list models.JobSpec)
    (cb : models.JobSpec -> M W bool) : M W unit :=
  match jobs with
  | [] => mret tt
  | j :: rest =>
      more ← cb j;
      if more : bool then Jobs_visit rest cb else mret tt
  end.

(** Modelled from the spec: [store.Jobs] is declared outside the tracker's
    file; it visits the stored jobs that have an initiator of the given
    kind, until the visitor returns false. *)
Definition store_Jobs (cb : models.JobSpec -> M W bool) (typ : string)
  : M W error :=
  jobs ← gets store_jobs;
  Jobs_visit
    (List.filter
       (fun j => negb (Nat.eqb (length (models.InitiatorsFor j typ)) 0))
       jobs)
    cb;;
  mret None.

Definition Start : M W error :=
  st ← gets started;
  if st : bool then mret (Some "Irita service tracker already started")
  else
    err ← Service.Start;
    match err with
    | Some e => mret (Some e)
    | None =>
        modify (set_started true);;
        store_Jobs (fun j => addJob j;; mret true) models.InitiatorIritaLog
    end.

Definition Stop : M W unit :=
  st ← gets started;
  if st : bool then
    Service.Stop;;
    modify (set_started false)
  else mret tt.

Definition AddJob (job : models.JobSpec) : M W unit :=
  st ← gets started;
  if negb st then mret tt
  else addJob job.

Definition RemoveJob (ID : string) : M W error := Service.RemoveJob ID.

End IritaServiceTracker.
End IritaServiceTracker.

(** [NewIritaServiceTracker]: nothing started, an empty registry, a nil
    [done] channel and no goroutine. *)
Definition NewIritaServiceTracker {C R : Type}
    (client : C) (store : list models.JobSpec) (runManager : R) : World C R :=
  {| started := false; store_jobs := store;
     jobSubscriptions := ∅; done := chan_nil;
     numberJobSubscriptions := 0; memory := ∅;
     client := client; runManager := runManager;
     goroutines := []; calls := [] |}.

(** ** Schedules *)

(** One atomic step of the process: a call of the tracker's API, a step of
    goroutine [i] before its loop, the delivery of a block to the callback
    of goroutine [i], or one iteration of the loop of goroutine [i] taking
    the request case (at time [now]) or the [done] case. *)
Inductive Label :=
| LStart
| LStop
| LAddJob (job : models.JobSpec)
| LRemoveJob (ID : string)
| LGo (i : nat)
| LBlock (i : nat) (events : types.Events)
| LRecv (i : nat) (now : Z)
| LDone (i : nat).

Section Schedule.
Context `{Extern} {C R : Type} `{!IRITAClient C} `{!RunManager R}.
#[local] Abbreviation W := (World C R).

Definition with_pc (p : pc) (g : Goroutine) : Goroutine :=
  {| g_initiator := g_initiator g; g_job := g_job g; g_pc := p |}.

Definition set_pc (i : nat) (p : pc) : M W unit :=
  modify (fun w =>
    set_goroutines
      (alter (fun gc => (with_pc p (fst gc), snd gc)) i (goroutines w)) w).

Definition set_ch (i : nat) (ch : list service.QueryServiceRequestResponse)
  : M W unit :=
  modify (fun w =>
    set_goroutines (alter (fun gc => (fst gc, ch)) i (goroutines w)) w).

(** After an iteration: back to the [select], or out of the function. *)
Definition loop_next (i : nat) (sub : types.Subscription) (more : bool)
  : M W unit :=
  if more then mret tt else set_pc i Returned.

Definition step (l : Label) : M W unit :=
  match l with
  | LStart => _ ← IritaServiceTracker.Start; mret tt
  | LStop => IritaServiceTracker.Stop
  | LAddJob job => IritaServiceTracker.AddJob job
  | LRemoveJob ID => _ ← IritaServiceTracker.RemoveJob ID; mret tt
  | LGo i =>
      gc ← gets (fun w => goroutines w !! i);
      match gc with
      | Some (g, _) =>
          match g_pc g with
          | AtSubscribe =>
              sub ← Service.Subscribe_open (g_initiator g);
              set_pc i (AtAddSubscription sub)
          | AtAddSubscription sub =>
              Service.addSubscription (models.ID (g_job g)) sub;;
              set_pc i (AtSelect sub)
          | _ => blocked
          end
      | None => blocked
      end
  | LBlock i events =>
      gc ← gets (fun w => goroutines w !! i);
      match gc with
      | Some (g, ch) =>
          match g_pc g with
          | AtSubscribe => blocked
          | _ =>
              requests ← Service.Subscribe_callback (g_initiator g) events;
              set_ch i (ch ++ requests)
          end
      | None => blocked
      end
  | LRecv i now =>
      gc ← gets (fun w => goroutines w !! i);
      match gc with
      | Some (g, request :: ch) =>
          match g_pc g with
          | AtSelect sub =>
              set_ch i ch;;
              more ← Service.Subscribe_select (g_initiator g) (g_job g) sub
                       (RecvRequest request now);
              loop_next i sub more
          | _ => blocked
          end
      | _ => blocked
      end
  | LDone i =>
      gc ← gets (fun w => goroutines w !! i);
      d ← gets done;
      match gc, d with
      | Some (g, _), chan_closed =>
          match g_pc g with
          | AtSelect sub =>
              more ← Service.Subscribe_select (g_initiator g) (g_job g) sub
                       RecvDone;
              loop_next i sub more
          | _ => blocked
          end
      | _, _ => blocked
      end
  end.

Definition run (sched : list Label) : M W unit := range sched step.

End Schedule.

(** ** Observations on states and call records *)

Definition is_unsubscribe (sub : types.Subscription) (c : Call) : bool :=
  match c with
  | CallUnsubscribe sub' =>
      String.eqb (types.sub_ID sub') (types.sub_ID sub)
  | _ => false
  end.

Definition is_any_unsubscribe (c : Call) : bool :=
  match c with CallUnsubscribe _ => true | _ => false end.

Definition is_create (c : Call) : bool :=
  match c with CallCreate _ _ => true | _ => false end.

Definition is_add_to_memory (c : Call) : bool :=
  match c with CallAddToMemory _ _ => true | _ => false end.

Definition count_calls (p : Call -> bool) (cs : list Call) : nat :=
  length (List.filter p cs).

(** The program counter and the pending sends of goroutine [i]. *)
Definition pc_of {C R} (w : World C R) (i : nat) : option pc :=
  (fun gc => g_pc (fst gc)) <$> goroutines w !! i.

Definition ch_of {C R} (w : World C R) (i : nat)
  : option (list service.QueryServiceRequestResponse) :=
  snd <$> goroutines w !! i.

(** ** Test doubles

    Concrete collaborators on which the model runs: addresses that are their
    own bech32 text, a decoder for JSON arrays of plain string literals, a
    client that numbers the subscriptions it opens and fails the lookups of
    the identifiers it is told to fail, and a run manager that records its
    invocations. *)

Module mock.

Definition dquote : Ascii.ascii := "034"%char.

Definition quoted (s : string) : string :=
  String dquote (s +:+ String dquote EmptyString).

Inductive jstate :=
| JStart
| JOpen
| JIn (cur : string)
| JAfter
| JComma
| JEnd.

Fixpoint decode_go (st : jstate) (acc : list string) (s : string)
  : option (list string) :=
  match s with
  | EmptyString => match st with JEnd => Some acc | _ => None end
  | String c rest =>
      match st with
      | JStart =>
          if Ascii.eqb c "[" then decode_go JOpen acc rest else None
      | JOpen =>
          if Ascii.eqb c dquote then decode_go (JIn "") acc rest
          else if Ascii.eqb c "]" then decode_go JEnd acc rest
          else None
      | JIn cur =>
          if Ascii.eqb c dquote then decode_go JAfter (acc ++ [cur]) rest
          else decode_go (JIn (cur +:+ String c EmptyString)) acc rest
      | JAfter =>
          if Ascii.eqb c "," then decode_go JComma acc rest
          else if Ascii.eqb c "]" then decode_go JEnd acc rest
          else None
      | JComma =>
          if Ascii.eqb c dquote then decode_go (JIn "") acc rest else None
      | JEnd => None
      end
  end.

(** Arrays of string literals without escapes or white space decode to
    their elements; every other text is rejected and leaves no element. *)
Definition decode_ids (s : string) : list string * error :=
  match decode_go JStart [] s with
  | Some ids => (ids, None)
  | None => ([], Some "invalid character looking for beginning of value")
  end.

#[export] Instance extern : Extern := {|
  AccAddress := string;
  AccAddressFromBech32 := fun s => (s, None);
  AccAddress_String := fun a => a;
  json_Unmarshal := decode_ids;
|}.

Record Client := { opened : nat; failing : list string }.

Definition sub_name (n : nat) : string :=
  "sub-" +:+ String (Ascii.ascii_of_nat (48 + n)) EmptyString.

#[export] Instance client_ops : IRITAClient Client := {|
  SubscribeNewBlock := fun q c =>
    (({| types.sub_ID := sub_name (opened c); types.sub_Query := q |}, None),
     {| opened := S (opened c); failing := failing c |});
  Unsubscribe := fun _ c => (None, c);
  QueryServiceRequest := fun reqID c =>
    if existsb (String.eqb reqID) (failing c)
    then ((service.zero, Some "request not found"), c)
    else (({| service.req_ID := reqID; service.req_Input := "" |}, None), c);
|}.

Record Runs := {
  invocations : list (string * models.Initiator);
  fail_create : bool;
}.

#[export] Instance runs_ops : RunManager Runs := {|
  Create := fun jobID initr r =>
    let r' := {| invocations := invocations r ++ [(jobID, initr)];
                 fail_create := fail_create r |} in
    if fail_create r then (inr "run manager: cannot create run", r')
    else (inl {| models.run_ID := "run-of-" +:+ jobID |}, r');
|}.

Definition interest (name provider : string) : models.Initiator :=
  {| models.Type_ := models.InitiatorIritaLog;
     models.IritaServiceName := name;
     models.IritaServiceProvider := provider |}.

(** A job with the interests given, active from [start] to [stop]. *)
Definition job (id : string) (interests : list models.Initiator)
    (start stop : option Z) : models.JobSpec :=
  {| models.ID := id; models.Initiators := interests;
     models.StartAt := start; models.EndAt := stop |}.

(** A [new_batch_request_provider] record for a service, a provider and an
    encoded list of request identifiers. *)
Definition record_for (name provider requests : string) : types.Event :=
  {| types.Type_ := "new_batch_request_provider";
     types.Attributes_ :=
       [ {| types.Key := "service_name"; types.Value := name |};
         {| types.Key := "provider"; types.Value := provider |};
         {| types.Key := "requests"; types.Value := requests |} ] |}.

Definition fresh (fail_lookups : list string) (fail_runs : bool)
  : World Client Runs :=
  NewIritaServiceTracker
    {| opened := 0; failing := fail_lookups |} []
    {| invocations := []; fail_create := fail_runs |}.

(** A decoder for arrays whose elements are string literals or unsigned
    integers.  An integer cannot be stored in a string: as [json.Unmarshal]
    does for a value that does not fit its target, the decoder leaves the
    zero value (the empty string) at that index, goes on with the rest of
    the array and reports the type error at the end. *)
Inductive mstate :=
| MStart
| MOpen
| MIn (cur : string)
| MNum
| MAfter
| MComma
| MEnd.

Definition is_digit (c : Ascii.ascii) : bool :=
  (48 <=? Ascii.nat_of_ascii c)%nat && (Ascii.nat_of_ascii c <=? 57)%nat.

Fixpoint decode_mixed_go (st : mstate) (acc : list string) (mismatch : bool)
    (s : string) : option (list string * bool) :=
  match s with
  | EmptyString => match st with MEnd => Some (acc, mismatch) | _ => None end
  | String c rest =>
      match st with
      | MStart =>
          if Ascii.eqb c "[" then decode_mixed_go MOpen acc mismatch rest
          else None
      | MOpen =>
          if Ascii.eqb c dquote then decode_mixed_go (MIn "") acc mismatch rest
          else if is_digit c
          then decode_mixed_go MNum (acc ++ [""]) true rest
          else if Ascii.eqb c "]" then decode_mixed_go MEnd acc mismatch rest
          else None
      | MIn cur =>
          if Ascii.eqb c dquote
          then decode_mixed_go MAfter (acc ++ [cur]) mismatch rest
          else decode_mixed_go (MIn (cur +:+ String c EmptyString)) acc
                 mismatch rest
      | MNum =>
          if is_digit c then decode_mixed_go MNum acc mismatch rest
          else if Ascii.eqb c "," then decode_mixed_go MComma acc mismatch rest
          else if Ascii.eqb c "]" then decode_mixed_go MEnd acc mismatch rest
          else None
      | MAfter =>
          if Ascii.eqb c "," then decode_mixed_go MComma acc mismatch rest
          else if Ascii.eqb c "]" then decode_mixed_go MEnd acc mismatch rest
          else None
      | MComma =>
          if Ascii.eqb c dquote then decode_mixed_go (MIn "") acc mismatch rest
          else if is_digit c
          then decode_mixed_go MNum (acc ++ [""]) true rest
          else None
      | MEnd => None
      end
  end.

Definition decode_mixed (s : string) : list string * error :=
  match decode_mixed_go MStart [] false s with
  | Some (ids, false) => (ids, None)
  | Some (ids, true) =>
      (ids,
       Some "json: cannot unmarshal number into Go value of type string")
  | None => ([], Some "invalid character looking for beginning of value")
  end.

(** The library functions with that decoder. *)
Definition extern_mixed : Extern := {|
  AccAddress := string;
  AccAddressFromBech32 := fun s => (s, None);
  AccAddress_String := fun a => a;
  json_Unmarshal := decode_mixed;
|}.

(** A client whose event source is down: every subscription is refused,
    every lookup fails. *)
Inductive Down := down.

Definition down_ops : IRITAClient Down := {|
  SubscribeNewBlock := fun q c =>
    (({| types.sub_ID := ""; types.sub_Query := [] |},
      Some "event source unreachable"), c);
  Unsubscribe := fun _ c => (Some "event source unreachable", c);
  QueryServiceRequest := fun _ c =>
    ((service.zero, Some "event source unreachable"), c);
|}.

(** The state a schedule leads to (the state it starts from when it does
    not run to its end). *)
Definition after (sched : list Label) (w : World Client Runs)
  : World Client Runs :=
  match run sched w with
  | Ok _ w' => w'
  | _ => w
  end.

End mock.

(** ** Reference definitions for the statements *)

Section Reference.
Context `{Extern} {C R : Type} `{!IRITAClient C} `{!RunManager R}.

(** A record the matcher takes: tagged [new_batch_request_provider], with
    the service name and the provider of the interest. *)
Definition record_matches (serviceName : string) (provider : AccAddress)
    (e : types.Event) : bool :=
  String.eqb (types.Type_ e) "new_batch_request_provider"
  && (String.eqb (types.GetValue (types.Attributes_ e) "service_name")
        serviceName
      && String.eqb (types.GetValue (types.Attributes_ e) "provider")
           (AccAddress_String provider)).

(** What the decoder leaves for the identifier list of a record. *)
Definition record_ids (e : types.Event) : list string :=
  fst (json_Unmarshal (types.GetValue (types.Attributes_ e) "requests")).

(** The identifiers of a batch for an interest: those of the matching
    records, record after record. *)
Definition matched_ids (events : types.Events) (serviceName : string)
    (provider : AccAddress) : list string :=
  concat (List.map record_ids
            (List.filter (record_matches serviceName provider) events)).

(** The answers of the lookup collaborator to a sequence of identifiers,
    asked one after the other from client state [c]. *)
Fixpoint lookups (ids : list string) (c : C)
  : list (service.QueryServiceRequestResponse * error) :=
  match ids with
  | [] => []
  | reqID :: rest =>
      let '(r, c') := QueryServiceRequest reqID c in
      r :: lookups rest c'
  end.

(** The handles the registry holds for a job. *)
Definition handles_of (job : models.JobSpec) (w : World C R)
  : list types.Subscription :=
  snd <$> List.filter (fun kv => String.eqb (fst kv) (models.ID job))
            (map_to_list (jobSubscriptions w)).

(** The goroutines one [AddJob] starts: one per interest of the job, each
    at the entry of [Subscribe]. *)
Definition spawned (job : models.JobSpec)
  : list (Goroutine * list service.QueryServiceRequestResponse) :=
  List.map
    (fun initiator =>
       ({| g_initiator := initiator; g_job := job; g_pc := AtSubscribe |},
        []))
    (models.InitiatorsFor job models.InitiatorIritaLog).

(** A goroutine that has executed its [addSubscription]. *)
Definition past_registration (p : pc) : bool :=
  match p with
  | AtSelect _ | Returned => true
  | AtSubscribe | AtAddSubscription _ => false
  end.

(** Every goroutine past its registration finds an entry under the
    identifier of its job. *)
Definition registered (w : World C R) : Prop :=
  forall i g ch,
    goroutines w !! i = Some (g, ch) ->
    past_registration (g_pc g) = true ->
    is_Some (jobSubscriptions w !! models.ID (g_job g)).

(** Labels of goroutine steps, as opposed to calls of the API. *)
Definition goroutine_label (l : Label) : bool :=
  match l with
  | LGo _ | LBlock _ _ | LRecv _ _ | LDone _ => true
  | LStart | LStop | LAddJob _ | LRemoveJob _ => false
  end.

(** The labels that belong to goroutine [i]. *)
Definition label_of (i : nat) (l : Label) : bool :=
  match l with
  | LGo j | LRecv j _ | LDone j => Nat.eqb i j
  | _ => false
  end.

Definition map_state {A} (f : World C R -> World C R)
    (r : Res (World C R) A) : Res (World C R) A :=
  match r with
  | Ok a w => Ok a (f w)
  | Panic msg w => Panic msg (f w)
  | Blocked => Blocked
  end.

End Reference.

Section Conditions.
Context {C R : Type} `{!IRITAClient C}.

(** While the tracker is started, [done] is the open channel made by
    [Service.Start]. *)
Definition done_open_when_started (w : World C R) : Prop :=
  started w = true -> done w = chan_open.

(** A client that opens every subscription it is asked for. *)
Definition subscribe_never_fails : Prop :=
  forall q (c : C), snd (fst (SubscribeNewBlock q c)) = None.

(** Every key of the registry is the identifier of the job of a goroutine
    that has registered. *)
Definition keys_registered (w : World C R) : Prop :=
  forall k,
    is_Some (jobSubscriptions w !! k) ->
    exists i g ch,
      goroutines w !! i = Some (g, ch)
      /\ models.ID (g_job g) = k
      /\ past_registration (g_pc g) = true.

(** The goroutines from index [n] on run [Subscribe] for [job], and those
    of them that have executed their [addSubscription] find an entry under
    the job's identifier. *)
Definition spawned_registered (n : nat) (job : models.JobSpec)
    (w : World C R) : Prop :=
  forall i g ch,
    n <= i ->
    goroutines w !! i = Some (g, ch) ->
    g_job g = job
    /\ (past_registration (g_pc g) = true ->
        is_Some (jobSubscriptions w !! models.ID job)).

(** The labels of [RemoveJob] and of [Stop]. *)
Definition removes (l : Label) : bool :=
  match l with LRemoveJob _ => true | _ => false end.


Definition is_panic {A} (r : Res (World C R) A) : bool :=
  match r with Panic _ _ => true | _ => false end.

(** The goroutines [Start] starts for the jobs of the store. *)
Definition stored_spawned (jobs : list models.JobSpec)
  : list (Goroutine * list service.QueryServiceRequestResponse) :=
  concat
    (List.map spawned
       (List.filter
          (fun j =>
             negb (Nat.eqb
                     (length (models.InitiatorsFor j models.InitiatorIritaLog))
                     0))
          jobs)).

End Conditions.

(** ** Goroutine steps as a relation *)

Section Relation.
Context `{Extern} {C R : Type} `{!IRITAClient C} `{!RunManager R}.

(** [goroutine_step l w w']: the step labelled [l] of a goroutine leads from
    [w] to [w'] without panic.  One constructor per path through
    [Subscribe] and its callback. *)
Inductive goroutine_step : Label -> World C R -> World C R -> Prop :=
| step_open i g ch sub c' w :
    goroutines w !! i = Some (g, ch) ->
    g_pc g = AtSubscribe ->
    SubscribeNewBlock (Service.Subscribe_builder (g_initiator g)) (client w)
    = ((sub, None), c') ->
    goroutine_step (LGo i) w
      (set_goroutines
         (<[i := (with_pc (AtAddSubscription sub) g, ch)]> (goroutines w))
         (set_client c'
            (set_calls
               (calls w
                ++ [CallSubscribeNewBlock
                      (Service.Subscribe_builder (g_initiator g))])
               w)))
| step_register i g ch sub w :
    goroutines w !! i = Some (g, ch) ->
    g_pc g = AtAddSubscription sub ->
    goroutine_step (LGo i) w
      (set_goroutines (<[i := (with_pc (AtSelect sub) g, ch)]> (goroutines w))
         (set_jobSubscriptions
            (<[models.ID (g_job g) := sub]> (jobSubscriptions w)) w))
| step_block i g ch events c' w :
    goroutines w !! i = Some (g, ch) ->
    g_pc g <> AtSubscribe ->
    let ids :=
      matched_ids events (models.IritaServiceName (g_initiator g))
        (fst (AccAddressFromBech32
                (models.IritaServiceProvider (g_initiator g)))) in
    goroutine_step (LBlock i events) w
      (set_goroutines
         (<[i := (g, ch ++ (lookups ids (client w)).*1)]> (goroutines w))
         (set_client c'
            (set_calls (calls w ++ List.map CallQueryServiceRequest ids) w)))
| step_outside i g request ch sub now w :
    goroutines w !! i = Some (g, request :: ch) ->
    g_pc g = AtSelect sub ->
    negb (models.Started (g_job g) now) || models.Ended (g_job g) now = true ->
    goroutine_step (LRecv i now) w
      (set_goroutines (<[i := (with_pc Returned g, ch)]> (goroutines w)) w)
| step_create_error i g request ch sub now err r' w :
    goroutines w !! i = Some (g, request :: ch) ->
    g_pc g = AtSelect sub ->
    negb (models.Started (g_job g) now) || models.Ended (g_job g) now = false ->
    Create (models.ID (g_job g)) (g_initiator g) (runManager w) = (inr err, r') ->
    goroutine_step (LRecv i now) w
      (set_goroutines (<[i := (with_pc Returned g, ch)]> (goroutines w))
         (set_calls
            (calls w
             ++ [CallCreate (models.ID (g_job g)) (g_initiator g);
                 CallLoggerError err])
            (set_runManager r' w)))
| step_create_ok i g request ch sub now jobRun r' w :
    goroutines w !! i = Some (g, request :: ch) ->
    g_pc g = AtSelect sub ->
    negb (models.Started (g_job g) now) || models.Ended (g_job g) now = false ->
    Create (models.ID (g_job g)) (g_initiator g) (runManager w)
    = (inl jobRun, r') ->
    let sr := {| store.RequestResponse := request;
                 store.Provider := models.IritaServiceProvider (g_initiator g) |}
    in
    goroutine_step (LRecv i now) w
      (set_memory (<[models.GetID jobRun := sr]> (memory w))
         (set_calls
            (calls w
             ++ [CallCreate (models.ID (g_job g)) (g_initiator g);
                 CallAddToMemory (models.GetID jobRun) sr])
            (set_runManager r'
               (set_goroutines (<[i := (g, ch)]> (goroutines w)) w))))
| step_done i g ch sub w :
    goroutines w !! i = Some (g, ch) ->
    g_pc g = AtSelect sub ->
    done w = chan_closed ->
    goroutine_step (LDone i) w
      (set_calls (calls w ++ [CallUnsubscribe sub; CallPrintln "done"])
         (set_client (snd (Unsubscribe sub (client w))) w)).

End Relation.

(** ** Scenarios *)

Module scenario.
Import mock.

Definition ids_42 : string := "[" +:+ quoted "req-42" +:+ "]".

Definition ids_a_bad_c : string :=
  "[" +:+ quoted "a" +:+ "," +:+ quoted "bad" +:+ "," +:+ quoted "c" +:+ "]".

(** Two records of one block that name the same request. *)
Definition twice_42 : types.Events :=
  [record_for "svcA" "p1" ids_42; record_for "svcA" "p1" ids_42].

(** A block whose only record names three requests. *)
Definition block_a_bad_c : types.Events :=
  [record_for "svcA" "p1" ids_a_bad_c].

(** A job with one interest and an open-ended window. *)
Definition J1 : models.JobSpec :=
  job "J" [interest "svcA" "p1"] None None.

(** A job with two interests. *)
Definition J2 : models.JobSpec :=
  job "J" [interest "svcA" "p1"; interest "svcB" "p1"] None None.

(** A job whose window ended at time 10. *)
Definition expired : models.JobSpec :=
  job "E" [interest "svcA" "p1"] (Some 0%Z) (Some 10%Z).

(** A started tracker whose one goroutine, for the job given, is at its
    [select] with two requests waiting to be sent. *)
Definition w_looping (j : models.JobSpec) (fail_runs : bool)
  : World Client Runs :=
  after [LStart; LAddJob j; LGo 0; LGo 0; LBlock 0 twice_42]
    (fresh [] fail_runs).

(** The same after [Stop]: [done] is closed. *)
Definition w_stopped : World Client Runs :=
  after [LStop] (w_looping J1 false).

(** A started tracker with no job. *)
Definition w_started : World Client Runs :=
  after [LStart] (fresh [] false).

(** The handle the client hands out first for an interest. *)
Definition sub_0 (i : models.Initiator) : types.Subscription :=
  {| types.sub_ID := "sub-0"; types.sub_Query := Service.Subscribe_builder i |}.

Definition req_42 : service.QueryServiceRequestResponse :=
  {| service.req_ID := "req-42"; service.req_Input := "" |}.

(** [J2] added twice, and each of the four goroutines run up to its
    [select]. *)
Definition w_J2_twice : World Client Runs :=
  after [LAddJob J2; LAddJob J2;
         LGo 0; LGo 0; LGo 1; LGo 1; LGo 2; LGo 2; LGo 3; LGo 3]
    w_started.

(** A job with no interest of the tracker's kind. *)
Definition J0 : models.JobSpec :=
  job "K"
    [ {| models.Type_ := "web"; models.IritaServiceName := "";
         models.IritaServiceProvider := "" |} ]
    None None.

(** A record of another service, and a record of another event type that
    names the interest. *)
Definition other_records : types.Events :=
  [ record_for "svcB" "p1" ids_42;
    {| types.Type_ := "new_batch_request";
       types.Attributes_ := types.Attributes_ (record_for "svcA" "p1" ids_42) |} ].

(** A tracker whose store holds [J1], [J0] and [J2]. *)
Definition w_store : World Client Runs :=
  NewIritaServiceTracker
    {| opened := 0; failing := [] |} [J1; J0; J2]
    {| invocations := []; fail_create := false |}.

(** The goroutine of [expired] has received a request at time 20 and
    returned; one request is still waiting. *)
Definition w_returned : World Client Runs :=
  after [LRecv 0 20] (w_looping expired false).

(** A schedule that starts, stops and restarts the tracker around the life
    of a goroutine. *)
Definition restarts : list Label :=
  [LStop; LStart; LStart; LAddJob J1; LGo 0; LGo 0; LBlock 0 twice_42;
   LRecv 0 5; LStop; LStop; LDone 0; LRemoveJob "J"; LRemoveJob "J"; LStart].

(** An identifier list whose second element is a number. *)
Definition ids_a_1 : string := "[" +:+ quoted "a" +:+ ",1]".

(** A block whose only record carries that list. *)
Definition block_a_1 : types.Events := [record_for "svcA" "p1" ids_a_1].

(** [J1] was added, its goroutine registered, and the job was removed: the
    goroutine is still at its [select], the registry is empty. *)
Definition w_removed : World Client Runs :=
  after [LStart; LAddJob J1; LGo 0; LGo 0; LRemoveJob "J"] (fresh [] false).

(** [J1] added twice after that, and the goroutine of the first call run
    up to its [select]. *)
Definition w_removed_twice : World Client Runs :=
  after ([] ++ LAddJob J1 :: [LGo 1; LGo 1] ++ LAddJob J1 :: []) w_removed.

(** A started tracker on the refusing client, with the goroutine of [J1]
    at the entry of [Subscribe]. *)
Definition w_down : World Down Runs :=
  let w0 := NewIritaServiceTracker down []
              {| invocations := []; fail_create := false |} in
  match run (IRITAClient0 := down_ops) [LStart; LAddJob J1] w0 with
  | Ok _ w => w
  | _ => w0
  end.

End scenario.

Import mock.

(** * Properties *)

Ltac go_unfold :=
  unfold mbind, M_bind, bind, mret, M_ret, ret, gets, modify, panic, blocked.

Section Matcher.
Context `{Extern}.

Lemma GetServiceResquest_ids_acc events name prov ids :
  Service.GetServiceResquest_ids events name prov ids =
  ids ++ concat (List.map record_ids
           (List.filter
              (fun e =>
                 String.eqb (types.GetValue (types.Attributes_ e) "service_name") name
                 && String.eqb (types.GetValue (types.Attributes_ e) "provider")
                      (AccAddress_String prov))
              events)).
Proof.
  revert ids. induction events as [|e rest IH]; intros ids; simpl.
  - by rewrite app_nil_r.
  - destruct (_ && _); simpl.
    + unfold record_ids at 1.
      destruct (json_Unmarshal _) as [idsTemp err]; simpl.
      by rewrite IH, app_assoc.
    + apply IH.
Qed.

Lemma filter_filter_andb {A} (f g : A -> bool) (l : list A) :
  List.filter f (List.filter g l) = List.filter (fun x => g x && f x) l.
Proof.
  induction l as [|x l IH]; simpl; [done|].
  destruct (g x); simpl; [destruct (f x)|]; by rewrite ?IH.
Qed.

Lemma elem_of_matched_ids events name prov id :
  id ∈ matched_ids events name prov <->
  exists e, e ∈ events /\ record_matches name prov e = true
            /\ id ∈ record_ids e.
Proof.
  unfold matched_ids. rewrite list_elem_of_In, in_concat. split.
  - intros (l & Hl & Hid). apply in_map_iff in Hl as (e & <- & He).
    apply filter_In in He as [He Hm].
    exists e. by rewrite !list_elem_of_In.
  - intros (e & He & Hm & Hid). exists (record_ids e).
    split; [|by apply list_elem_of_In].
    apply in_map_iff. exists e. split; [done|].
    apply filter_In. split; [by apply list_elem_of_In|done].
Qed.

Lemma GetServiceResquest_ids_matched events name prov :
  Service.GetServiceResquest_ids
    (types.Filter events "new_batch_request_provider") name prov []
  = matched_ids events name prov.
Proof.
  rewrite GetServiceResquest_ids_acc. simpl. unfold types.Filter.
  by rewrite filter_filter_andb.
Qed.

(** C4 (as amended): for every batch and interest the first loop of
    [GetServiceResquest] returns the identifiers that the decoder leaves
    for the records tagged new_batch_request_provider whose service name
    and provider equal the interest's, record after record and with
    duplicates kept; an identifier is returned exactly when some matching
    record carries it.  The error of the decoder is discarded: a matching
    record contributes exactly the elements the decoder left in the slice,
    whether the decoding succeeded or failed, so a record whose list fails
    to decode contributes zero identifiers only when the decoder left none.
    The function is total: no record aborts the batch. *)
Theorem GetServiceResquest_ids_keeps_duplicates events name prov :
  Service.GetServiceResquest_ids
    (types.Filter events "new_batch_request_provider") name prov []
  = matched_ids events name prov
  /\ (forall id,
        id ∈ Service.GetServiceResquest_ids
               (types.Filter events "new_batch_request_provider") name prov []
        <-> exists e, e ∈ events /\ record_matches name prov e = true
                      /\ id ∈ record_ids e)
  /\ forall pre e post l (err : error),
       events = pre ++ e :: post ->
       record_matches name prov e = true ->
       json_Unmarshal (types.GetValue (types.Attributes_ e) "requests")
       = (l, err) ->
       Service.GetServiceResquest_ids
         (types.Filter events "new_batch_request_provider") name prov []
       = Service.GetServiceResquest_ids
           (types.Filter pre "new_batch_request_provider") name prov []
         ++ l
         ++ Service.GetServiceResquest_ids
              (types.Filter post "new_batch_request_provider") name prov [].
Proof.
  split; [apply GetServiceResquest_ids_matched|]. split.
  - intros id. rewrite GetServiceResquest_ids_matched.
    apply elem_of_matched_ids.
  - intros pre e post l err -> Hmatch Hdecode.
    rewrite !GetServiceResquest_ids_matched. unfold matched_ids.
    rewrite List.filter_app, List.map_app, concat_app. simpl.
    rewrite Hmatch. simpl. unfold record_ids at 2. by rewrite Hdecode.
Qed.

End Matcher.

(** C4 (counterexample): two records of one batch that both carry
    [["req-42"]] for the interest make the matcher return req-42 twice; and
    a record whose list [["a",1]] fails to decode (the number is not a
    string) still contributes the two elements the decoder left, a and the
    empty string. *)
Lemma GetServiceResquest_ids_duplicate_failed_decode :
  (Service.GetServiceResquest_ids
     (types.Filter scenario.twice_42 "new_batch_request_provider")
     "svcA" "p1" []
   = ["req-42"; "req-42"]
   /\ ~ NoDup (Service.GetServiceResquest_ids
                (types.Filter scenario.twice_42 "new_batch_request_provider")
                "svcA" "p1" []))
  /\ (json_Unmarshal (Extern := mock.extern_mixed) scenario.ids_a_1
      = (["a"; ""],
         Some "json: cannot unmarshal number into Go value of type string")
      /\ Service.GetServiceResquest_ids (H := mock.extern_mixed)
           (types.Filter scenario.block_a_1 "new_batch_request_provider")
           "svcA" "p1" []
         = ["a"; ""]).
Proof.
  split.
  - assert (Heq : Service.GetServiceResquest_ids
                    (types.Filter scenario.twice_42
                       "new_batch_request_provider")
                    "svcA" "p1" [] = ["req-42"; "req-42"])
      by (vm_compute; done).
    split; [done|]. rewrite Heq. intros Hnd.
    apply NoDup_cons in Hnd as [Hin _]. apply Hin. left.
  - split; vm_compute; reflexivity.
Qed.

Section Resolver.
Context `{Extern} {C R : Type} `{!IRITAClient C} `{!RunManager R}.
Implicit Types w : World C R.

Lemma length_lookups ids (c : C) : length (lookups ids c) = length ids.
Proof.
  revert c. induction ids as [|id ids IH]; intros c; simpl; [done|].
  destruct (QueryServiceRequest id c) as [r c']. simpl. by rewrite IH.
Qed.

Lemma GetServiceResquest_requests_lookups ids requests w :
  exists w',
    Service.GetServiceResquest_requests ids requests w
    = Ok (requests ++ (lookups ids (client w)).*1) w'
    /\ calls w' = calls w ++ List.map CallQueryServiceRequest ids.
Proof.
  revert requests w. induction ids as [|id ids IH]; intros requests w.
  - exists w. simpl. by rewrite !app_nil_r.
  - simpl. unfold Client_QueryServiceRequest, record. go_unfold. simpl.
    destruct (QueryServiceRequest id (client w)) as [[request err] c'] eqn:Hq.
    simpl.
    edestruct IH as (w' & -> & Hcalls). exists w'. split.
    + simpl. by rewrite <- app_assoc.
    + rewrite Hcalls. simpl. by rewrite <- app_assoc.
Qed.

(** C3 (as amended): for every batch, the resolver asks the lookup
    collaborator once per matched identifier, in order, and its output
    holds one element per identifier whether or not the lookup succeeded:
    the element is the response returned next to the discarded error.  A
    failed lookup does not stop the resolution of the identifiers after
    it, and the resolver neither panics nor blocks. *)
Theorem GetServiceResquest_one_element_per_id events name prov w :
  exists requests w',
    Service.GetServiceResquest events name prov w = Ok requests w'
    /\ requests = (lookups (matched_ids events name prov) (client w)).*1
    /\ length requests = length (matched_ids events name prov)
    /\ calls w' = calls w
         ++ List.map CallQueryServiceRequest (matched_ids events name prov).
Proof.
  unfold Service.GetServiceResquest.
  rewrite GetServiceResquest_ids_matched.
  destruct (GetServiceResquest_requests_lookups
              (matched_ids events name prov) [] w) as (w' & Hrun & Hcalls).
  eexists _, w'. split; [exact Hrun|]. split; [done|]. split; [|done].
  simpl. by rewrite length_fmap, length_lookups.
Qed.

End Resolver.

(** C3 (counterexample): with the lookup of "bad" failing, the resolver
    returns three elements for the identifiers a, bad and c; the one for
    "bad" is the zero response that came with the error. *)
Lemma GetServiceResquest_keeps_failed_lookup :
  fst (QueryServiceRequest "bad" (client (mock.fresh ["bad"] false)))
  = (service.zero, Some "request not found")
  /\ exists w',
       Service.GetServiceResquest scenario.block_a_bad_c "svcA" "p1"
         (mock.fresh ["bad"] false)
       = Ok [ {| service.req_ID := "a"; service.req_Input := "" |};
              service.zero;
              {| service.req_ID := "c"; service.req_Input := "" |} ] w'.
Proof.
  split; [reflexivity|]. eexists. vm_compute. reflexivity.
Qed.

Section Registry.
Context `{Extern} {C R : Type} `{!IRITAClient C} `{!RunManager R}.
Implicit Types w : World C R.

Lemma RemoveJob_absent ID w :
  jobSubscriptions w !! ID = None ->
  Service.RemoveJob ID w
  = Ok (Some ("JobSubscriber#RemoveJob: job " +:+ ID +:+ " not found"))
      (set_numberJobSubscriptions (Z.of_nat (size (jobSubscriptions w)))
         (set_calls
            (calls w ++ [CallGaugeSet (Z.of_nat (size (jobSubscriptions w)))])
            w)).
Proof.
  intros Habs. unfold Service.RemoveJob, numberJobSubscriptions_Set, record.
  go_unfold. simpl. rewrite Habs, (delete_id _ _ Habs).
  destruct w; reflexivity.
Qed.

Lemma RemoveJob_present ID sub w :
  jobSubscriptions w !! ID = Some sub ->
  exists w',
    Service.RemoveJob ID w = Ok None w'
    /\ jobSubscriptions w' = delete ID (jobSubscriptions w)
    /\ numberJobSubscriptions w' = Z.of_nat (size (jobSubscriptions w'))
    /\ calls w' = calls w
         ++ [CallGaugeSet (Z.of_nat (size (delete ID (jobSubscriptions w))));
             CallUnsubscribe sub]
    /\ started w' = started w
    /\ goroutines w' = goroutines w.
Proof.
  intros Hsub.
  unfold Service.RemoveJob, numberJobSubscriptions_Set, Client_Unsubscribe,
    record.
  go_unfold. simpl. rewrite Hsub. simpl.
  destruct (Unsubscribe sub (client w)) as [err c']. simpl.
  eexists. split; [reflexivity|]. simpl.
  by rewrite <- app_assoc.
Qed.

(** C8: for an identifier with no entry in the registry, [RemoveJob]
    returns the not-found error and leaves the registry as it was (same
    entries, same size); it makes no call to [Unsubscribe] and does not
    touch the client. *)
Theorem RemoveJob_not_found ID w :
  jobSubscriptions w !! ID = None ->
  exists w',
    Service.RemoveJob ID w
    = Ok (Some ("JobSubscriber#RemoveJob: job " +:+ ID +:+ " not found")) w'
    /\ jobSubscriptions w' = jobSubscriptions w
    /\ size (jobSubscriptions w') = size (jobSubscriptions w)
    /\ count_calls is_any_unsubscribe (calls w')
       = count_calls is_any_unsubscribe (calls w)
    /\ client w' = client w
    /\ goroutines w' = goroutines w.
Proof.
  intros Habs. eexists. split; [by apply RemoveJob_absent|]. simpl.
  repeat split. unfold count_calls.
  by rewrite List.filter_app, length_app, Nat.add_0_r.
Qed.

(** C5 (the code at the failing input, in general): registering a handle
    under a new identifier grows the registry by one entry and leaves the
    gauge at its old value, so a gauge that was equal to the registry's
    size no longer is; no call to the gauge is made. *)
Theorem addSubscription_leaves_gauge ID sub w :
  jobSubscriptions w !! ID = None ->
  numberJobSubscriptions w = Z.of_nat (size (jobSubscriptions w)) ->
  exists w',
    Service.addSubscription ID sub w = Ok tt w'
    /\ jobSubscriptions w' = <[ID := sub]> (jobSubscriptions w)
    /\ size (jobSubscriptions w') = S (size (jobSubscriptions w))
    /\ calls w' = calls w
    /\ numberJobSubscriptions w' = numberJobSubscriptions w
    /\ numberJobSubscriptions w' <> Z.of_nat (size (jobSubscriptions w')).
Proof.
  intros Habs Hgauge. eexists. split; [reflexivity|]. simpl.
  rewrite (map_size_insert_None _ _ _ Habs), Hgauge.
  repeat split. lia.
Qed.

End Registry.

Section Lifecycle.
Context `{Extern} {C R : Type} `{!IRITAClient C} `{!RunManager R}.
Implicit Types w : World C R.

Lemma Stop_stopped w :
  started w = false -> IritaServiceTracker.Stop w = Ok tt w.
Proof.
  intros Hst. unfold IritaServiceTracker.Stop. go_unfold. by rewrite Hst.
Qed.

Lemma Stop_started w w' :
  started w = true ->
  IritaServiceTracker.Stop w = Ok tt w' ->
  done w = chan_open /\ w' = set_started false (set_done chan_closed w).
Proof.
  intros Hst. unfold IritaServiceTracker.Stop, Service.Stop, close_done.
  go_unfold. rewrite Hst. destruct (done w); simpl; [done| |done].
  intros [= <-]. done.
Qed.

(** C9: [Start] on a started tracker returns the already-started error
    and leaves the whole state as it was, goroutines included; [Stop] on a
    stopped tracker returns with the state as it was; and after any [Stop]
    that returns, the tracker is stopped, so a second [Stop] changes
    nothing and does not close [done] again. *)
Theorem Start_started_Stop_stopped w1 w2 :
  started w1 = true ->
  started w2 = false ->
  IritaServiceTracker.Start w1
  = Ok (Some "Irita service tracker already started") w1
  /\ IritaServiceTracker.Stop w2 = Ok tt w2
  /\ forall w3,
       IritaServiceTracker.Stop w1 = Ok tt w3 ->
       started w3 = false /\ done w3 = chan_closed
       /\ IritaServiceTracker.Stop w3 = Ok tt w3.
Proof.
  intros Hst1 Hst2. split; [|split].
  - unfold IritaServiceTracker.Start. go_unfold. by rewrite Hst1.
  - by apply Stop_stopped.
  - intros w3 Hstop. apply Stop_started in Hstop as [_ ->]; [|done].
    split; [done|]. split; [done|]. by apply Stop_stopped.
Qed.

Lemma RemoveJob_set_started ID b w :
  IritaServiceTracker.RemoveJob ID (set_started b w)
  = map_state (set_started b) (IritaServiceTracker.RemoveJob ID w).
Proof.
  unfold IritaServiceTracker.RemoveJob, Service.RemoveJob,
    numberJobSubscriptions_Set, Client_Unsubscribe, record.
  go_unfold. simpl.
  destruct (jobSubscriptions w !! ID) as [sub|]; simpl; [|done].
  by destruct (Unsubscribe sub (client w)) as [err c'].
Qed.

(** C10: the tracker's [RemoveJob] is [Service.RemoveJob] whatever the
    started flag holds: setting the flag either way before the call only
    shows in the flag of the resulting state.  On a registered identifier
    it deletes the entry and unsubscribes the handle it held, on any other
    it returns the not-found error.  [AddJob] on a tracker that is not
    started returns with the state as it was. *)
Theorem RemoveJob_unguarded_AddJob_guarded ID job b w0 w :
  started w = false ->
  IritaServiceTracker.AddJob job w = Ok tt w
  /\ IritaServiceTracker.RemoveJob ID w0 = Service.RemoveJob ID w0
  /\ IritaServiceTracker.RemoveJob ID (set_started b w0)
     = map_state (set_started b) (IritaServiceTracker.RemoveJob ID w0)
  /\ match jobSubscriptions w0 !! ID with
     | Some sub =>
         exists w',
           IritaServiceTracker.RemoveJob ID w0 = Ok None w'
           /\ jobSubscriptions w' = delete ID (jobSubscriptions w0)
           /\ calls w' = calls w0
                ++ [CallGaugeSet
                      (Z.of_nat (size (delete ID (jobSubscriptions w0))));
                    CallUnsubscribe sub]
     | None =>
         exists w',
           IritaServiceTracker.RemoveJob ID w0
           = Ok (Some ("JobSubscriber#RemoveJob: job " +:+ ID
                       +:+ " not found")) w'
           /\ jobSubscriptions w' = jobSubscriptions w0
     end.
Proof.
  intros Hst. split; [|split; [done|split]].
  - unfold IritaServiceTracker.AddJob. go_unfold. by rewrite Hst.
  - apply RemoveJob_set_started.
  - destruct (jobSubscriptions w0 !! ID) as [sub|] eqn:Hsub.
    + destruct (RemoveJob_present ID sub w0 Hsub)
        as (w' & Hrun & Hreg & _ & Hcalls & _).
      by exists w'.
    + eexists. split; [by apply RemoveJob_absent|done].
Qed.

End Lifecycle.

Section Worker.
Context `{Extern} {C R : Type} `{!IRITAClient C} `{!RunManager R}.
Implicit Types w : World C R.

Lemma step_LRecv_outside i g request ch sub now w :
  goroutines w !! i = Some (g, request :: ch) ->
  g_pc g = AtSelect sub ->
  negb (models.Started (g_job g) now) || models.Ended (g_job g) now = true ->
  step (LRecv i now) w
  = Ok tt (set_goroutines
             (alter (fun gc => (with_pc Returned (fst gc), snd gc)) i
                (alter (fun gc => (fst gc, ch)) i (goroutines w))) w).
Proof.
  intros Hlook Hpc Hwin. unfold step. go_unfold. rewrite Hlook, Hpc.
  unfold set_ch, Service.Subscribe_select, loop_next, set_pc. go_unfold.
  simpl. rewrite Hwin. reflexivity.
Qed.

Lemma step_LRecv_create_error i g request ch sub now err r' w :
  goroutines w !! i = Some (g, request :: ch) ->
  g_pc g = AtSelect sub ->
  negb (models.Started (g_job g) now) || models.Ended (g_job g) now = false ->
  Create (models.ID (g_job g)) (g_initiator g) (runManager w) = (inr err, r') ->
  step (LRecv i now) w
  = Ok tt (set_goroutines
             (alter (fun gc => (with_pc Returned (fst gc), snd gc)) i
                (alter (fun gc => (fst gc, ch)) i (goroutines w)))
             (set_calls
                (calls w
                 ++ [CallCreate (models.ID (g_job g)) (g_initiator g);
                     CallLoggerError err])
                (set_runManager r' w))).
Proof.
  intros Hlook Hpc Hwin Hcreate. unfold step. go_unfold. rewrite Hlook, Hpc.
  unfold set_ch, Service.Subscribe_select, loop_next, set_pc,
    RunManager_Create, logger_Error, record.
  go_unfold. simpl. rewrite Hwin. simpl. rewrite Hcreate. simpl.
  by rewrite <- app_assoc.
Qed.

Lemma step_LRecv_create_ok i g request ch sub now jobRun r' w :
  goroutines w !! i = Some (g, request :: ch) ->
  g_pc g = AtSelect sub ->
  negb (models.Started (g_job g) now) || models.Ended (g_job g) now = false ->
  Create (models.ID (g_job g)) (g_initiator g) (runManager w)
  = (inl jobRun, r') ->
  let sr := {| store.RequestResponse := request;
               store.Provider := models.IritaServiceProvider (g_initiator g) |}
  in
  step (LRecv i now) w
  = Ok tt (set_memory (<[models.GetID jobRun := sr]> (memory w))
             (set_calls
                (calls w
                 ++ [CallCreate (models.ID (g_job g)) (g_initiator g);
                     CallAddToMemory (models.GetID jobRun) sr])
                (set_runManager r'
                   (set_goroutines
                      (alter (fun gc => (fst gc, ch)) i (goroutines w)) w)))).
Proof.
  intros Hlook Hpc Hwin Hcreate. unfold step. go_unfold. rewrite Hlook, Hpc.
  unfold set_ch, Service.Subscribe_select, loop_next, set_pc,
    RunManager_Create, store_AddToMemory, record.
  go_unfold. simpl. rewrite Hwin. simpl. rewrite Hcreate. simpl.
  by rewrite <- app_assoc.
Qed.

Lemma step_LDone_closed i g ch sub w :
  goroutines w !! i = Some (g, ch) ->
  g_pc g = AtSelect sub ->
  done w = chan_closed ->
  step (LDone i) w
  = Ok tt (set_calls (calls w ++ [CallUnsubscribe sub; CallPrintln "done"])
             (set_client (snd (Unsubscribe sub (client w))) w)).
Proof.
  intros Hlook Hpc Hdone. unfold step. go_unfold. rewrite Hlook, Hdone, Hpc.
  unfold Service.Subscribe_select, loop_next, Client_Unsubscribe, println,
    record.
  go_unfold. simpl. destruct (Unsubscribe sub (client w)) as [err c'].
  simpl. by rewrite <- app_assoc.
Qed.

Lemma pc_of_Some i p w :
  pc_of w i = Some p <->
  exists g ch, goroutines w !! i = Some (g, ch) /\ g_pc g = p.
Proof.
  unfold pc_of. split.
  - destruct (goroutines w !! i) as [[g ch]|]; simpl; [|done].
    intros [= <-]. by exists g, ch.
  - intros (g & ch & -> & <-). done.
Qed.

Lemma Returned_blocked i l w :
  pc_of w i = Some Returned ->
  label_of i l = true ->
  step l w = Blocked.
Proof.
  intros (g & ch & Hlook & Hpc)%pc_of_Some Hl.
  destruct l as [| | | |j|j evs|j now|j]; simpl in Hl; try done;
    apply Nat.eqb_eq in Hl as <-; unfold step; go_unfold; rewrite Hlook.
  - by rewrite Hpc.
  - destruct ch; [done|]. by rewrite Hpc.
  - destruct (done w); try done. by rewrite Hpc.
Qed.

Lemma lookup_set_pc_set_ch i p ch
    (gs : list (Goroutine * list service.QueryServiceRequestResponse)) :
  alter (fun gc => (with_pc p (fst gc), snd gc)) i
    (alter (fun gc => (fst gc, ch)) i gs) !! i
  = (fun gc => (with_pc p (fst gc), ch)) <$> gs !! i.
Proof.
  rewrite !list_lookup_alter_eq. by destruct (gs !! i).
Qed.

End Worker.

Section Interleaving.
Context `{Extern} {C R : Type} `{!IRITAClient C} `{!RunManager R}.
Implicit Types w : World C R.
Implicit Types gs : list (Goroutine * list service.QueryServiceRequestResponse).

Lemma set_goroutines_id w : set_goroutines (goroutines w) w = w.
Proof. by destruct w. Qed.

Lemma range_go (l : list models.Initiator) job w :
  range l
    (fun initiator =>
       go {| g_initiator := initiator; g_job := job; g_pc := AtSubscribe |}) w
  = Ok tt
      (set_goroutines
         (goroutines w
          ++ List.map
               (fun initiator =>
                  ({| g_initiator := initiator; g_job := job;
                      g_pc := AtSubscribe |}, [])) l) w).
Proof.
  revert w. induction l as [|x l IH]; intros w; simpl.
  - by rewrite app_nil_r, set_goroutines_id.
  - unfold go at 1. go_unfold. rewrite IH. simpl. by rewrite <- app_assoc.
Qed.

Lemma AddJob_spawns job w :
  Service.AddJob job w
  = Ok tt (set_goroutines (goroutines w ++ spawned job) w).
Proof. apply range_go. Qed.

Lemma Jobs_visit_spawns jobs (cb : models.JobSpec -> M (World C R) bool) w :
  (forall j w1,
     cb j w1 = Ok true (set_goroutines (goroutines w1 ++ spawned j) w1)) ->
  IritaServiceTracker.Jobs_visit jobs cb w
  = Ok tt (set_goroutines
             (goroutines w ++ concat (List.map spawned jobs)) w).
Proof.
  intros Hcb. revert w. induction jobs as [|j jobs IH]; intros w; simpl.
  - by rewrite app_nil_r, set_goroutines_id.
  - go_unfold. rewrite Hcb, IH. simpl. by rewrite <- app_assoc.
Qed.

Lemma Start_stopped w :
  started w = false ->
  exists extra,
    IritaServiceTracker.Start w
    = Ok None
        (set_goroutines (goroutines w ++ extra)
           (set_started true (set_done chan_open w))).
Proof.
  intros Hst. eexists.
  unfold IritaServiceTracker.Start, Service.Start,
    IritaServiceTracker.store_Jobs.
  go_unfold. rewrite Hst. simpl.
  rewrite Jobs_visit_spawns; [reflexivity|].
  intros j w1. unfold IritaServiceTracker.addJob.
  by rewrite AddJob_spawns.
Qed.

Lemma step_LAddJob_started job w :
  started w = true ->
  step (LAddJob job) w
  = Ok tt (set_goroutines (goroutines w ++ spawned job) w).
Proof.
  intros Hst. unfold step, IritaServiceTracker.AddJob. go_unfold.
  rewrite Hst. simpl. unfold IritaServiceTracker.addJob.
  apply AddJob_spawns.
Qed.

(** A call of the API leaves the goroutines that exist as they are. *)
Lemma step_api l w w' :
  goroutine_label l = false ->
  step l w = Ok tt w' ->
  exists extra, goroutines w' = goroutines w ++ extra.
Proof.
  intros Hl Hstep. destruct l as [| |job|ID| | | |]; try done; clear Hl.
  - destruct (started w) eqn:Hst.
    + exists []. revert Hstep.
      unfold step, IritaServiceTracker.Start. go_unfold. rewrite Hst.
      intros [= <-]. by rewrite app_nil_r.
    + destruct (Start_stopped w Hst) as [extra Hstart]. exists extra.
      revert Hstep. unfold step. go_unfold. rewrite Hstart.
      by intros [= <-].
  - exists []. rewrite app_nil_r. simpl in Hstep.
    destruct (started w) eqn:Hst.
    + by apply Stop_started in Hstep as [_ ->].
    + rewrite Stop_stopped in Hstep by done. by injection Hstep as <-.
  - destruct (started w) eqn:Hst.
    + rewrite step_LAddJob_started in Hstep by done.
      injection Hstep as <-. by exists (spawned job).
    + exists []. revert Hstep.
      unfold step, IritaServiceTracker.AddJob. go_unfold. rewrite Hst.
      intros [= <-]. by rewrite app_nil_r.
  - exists []. rewrite app_nil_r. revert Hstep.
    unfold step, IritaServiceTracker.RemoveJob. go_unfold.
    destruct (jobSubscriptions w !! ID) as [sub|] eqn:Hsub.
    + destruct (RemoveJob_present ID sub w Hsub)
        as (w1 & -> & _ & _ & _ & _ & Hgs).
      by intros [= <-].
    + rewrite RemoveJob_absent by done. by intros [= <-].
Qed.

Lemma alter_lookup_insert {A} (f : A -> A) i (l : list A) x :
  l !! i = Some x -> alter f i l = <[i := f x]> l.
Proof.
  revert i. induction l as [|y l IH]; intros [|i] Hx; simpl in *; try done.
  - by injection Hx as ->.
  - f_equal. by apply IH.
Qed.

Lemma alter_alter_lookup_insert {A} (f h : A -> A) i (l : list A) x :
  l !! i = Some x -> alter f i (alter h i l) = <[i := f (h x)]> l.
Proof.
  intros Hx. rewrite (alter_lookup_insert f i _ (h x)).
  - rewrite (alter_lookup_insert h i l x) by done.
    apply list_insert_insert_eq.
  - by rewrite list_lookup_alter_eq, Hx.
Qed.

Lemma GetServiceResquest_requests_frame ids requests out w w' :
  Service.GetServiceResquest_requests ids requests w = Ok out w' ->
  exists c' cs, w' = set_calls cs (set_client c' w).
Proof.
  revert requests w. induction ids as [|id ids IH]; intros requests w; simpl.
  - go_unfold. intros [= _ <-]. exists (client w), (calls w). by destruct w.
  - unfold Client_QueryServiceRequest, record. go_unfold. simpl.
    destruct (QueryServiceRequest id (client w)) as [[request err] c1].
    simpl. intros (c' & cs & ->)%IH. by exists c', cs.
Qed.

(** One step of a goroutine: it changes the entry of that goroutine only,
    keeps its job, and either leaves the registry alone or is the
    registration of the goroutine's handle under its job's identifier. *)
Lemma step_goroutine l w w' :
  goroutine_label l = true ->
  step l w = Ok tt w' ->
  started w' = started w
  /\ exists i g ch g' ch',
       goroutines w !! i = Some (g, ch)
       /\ goroutines w' = <[i := (g', ch')]> (goroutines w)
       /\ g_job g' = g_job g
       /\ ((jobSubscriptions w' = jobSubscriptions w
            /\ past_registration (g_pc g') = past_registration (g_pc g)
            /\ (g_pc g = Returned -> g_pc g' = Returned))
           \/ (exists sub,
                 g_pc g = AtAddSubscription sub
                 /\ g_pc g' = AtSelect sub
                 /\ jobSubscriptions w'
                    = <[models.ID (g_job g) := sub]> (jobSubscriptions w))).
Proof.
  intros Hl Hstep.
  destruct l as [| | | |i|i events|i now|i]; try done; clear Hl.
  - revert Hstep. unfold step. go_unfold.
    destruct (goroutines w !! i) as [[g ch]|] eqn:Hlook; [|done].
    destruct (g_pc g) as [|sub|sub|] eqn:Hpc; try done.
    + unfold Service.Subscribe_open, Client_SubscribeNewBlock, record, set_pc.
      go_unfold. simpl.
      destruct (SubscribeNewBlock _ (client w)) as [[sub [err|]] c'];
        simpl; [done|].
      intros [= <-]. split; [done|].
      exists i, g, ch, (with_pc (AtAddSubscription sub) g), ch. simpl.
      split; [done|].
      split; [by rewrite (alter_lookup_insert _ i _ _ Hlook)|].
      split; [done|]. left. by rewrite Hpc.
    + unfold Service.addSubscription, set_pc. go_unfold. simpl.
      intros [= <-]. split; [done|].
      exists i, g, ch, (with_pc (AtSelect sub) g), ch. simpl.
      split; [done|].
      split; [by rewrite (alter_lookup_insert _ i _ _ Hlook)|].
      split; [done|]. right. by exists sub.
  - revert Hstep. unfold step. go_unfold.
    destruct (goroutines w !! i) as [[g ch]|] eqn:Hlook; [|done].
    assert (Hcb : forall w1,
              match Service.Subscribe_callback (g_initiator g) events w with
              | Ok a w2 => set_ch i (ch ++ a) w2
              | Panic msg w2 => Panic msg w2
              | Blocked => Blocked
              end = Ok tt w1 ->
              exists requests,
                started w1 = started w
                /\ goroutines w1
                   = <[i := (g, ch ++ requests)]> (goroutines w)
                /\ jobSubscriptions w1 = jobSubscriptions w).
    { intros w1. unfold Service.Subscribe_callback, Service.GetServiceResquest.
      destruct (Service.GetServiceResquest_requests _ _ w)
        as [out w2| |] eqn:Hrun; try done.
      apply GetServiceResquest_requests_frame in Hrun as (c' & cs & ->).
      unfold set_ch. go_unfold. simpl. intros [= <-]. simpl.
      exists out. split; [done|]. split; [|done].
      by rewrite (alter_lookup_insert _ i _ _ Hlook). }
    destruct (g_pc g) eqn:Hpc; try done;
      intros (requests & Hst & Hgs & Hreg)%Hcb; (split; [done|]);
      exists i, g, ch, g, (ch ++ requests); (split; [done|]);
      (split; [exact Hgs|]); (split; [done|]); by left.
  - destruct (goroutines w !! i) as [[g [|request ch]]|] eqn:Hlook;
      try (revert Hstep; unfold step; go_unfold; by rewrite Hlook).
    destruct (g_pc g) as [| |sub|] eqn:Hpc;
      try (revert Hstep; unfold step; go_unfold; by rewrite Hlook, Hpc).
    destruct (negb (models.Started (g_job g) now)
              || models.Ended (g_job g) now) eqn:Hwin.
    + rewrite (step_LRecv_outside i g request ch sub now w) in Hstep by done.
      injection Hstep as <-. split; [done|].
      exists i, g, (request :: ch), (with_pc Returned g), ch. simpl.
      split; [done|].
      split; [by rewrite (alter_alter_lookup_insert _ _ i _ _ Hlook)|].
      split; [done|]. left. by rewrite Hpc.
    + destruct (Create (models.ID (g_job g)) (g_initiator g) (runManager w))
        as [[jobRun|err] r'] eqn:Hcreate.
      * pose proof (step_LRecv_create_ok i g request ch sub now jobRun r' w
                      Hlook Hpc Hwin Hcreate) as Hok.
        cbv zeta in Hok. rewrite Hok in Hstep. injection Hstep as <-.
        split; [done|].
        exists i, g, (request :: ch), g, ch. simpl.
        split; [done|].
        split; [by rewrite (alter_lookup_insert _ i _ _ Hlook)|].
        split; [done|]. by left.
      * rewrite (step_LRecv_create_error i g request ch sub now err r' w)
          in Hstep by done.
        injection Hstep as <-. split; [done|].
        exists i, g, (request :: ch), (with_pc Returned g), ch. simpl.
        split; [done|].
        split; [by rewrite (alter_alter_lookup_insert _ _ i _ _ Hlook)|].
        split; [done|]. left. by rewrite Hpc.
  - destruct (goroutines w !! i) as [[g ch]|] eqn:Hlook;
      [|revert Hstep; unfold step; go_unfold; rewrite Hlook;
        by destruct (done w)].
    destruct (done w) eqn:Hdone;
      try (revert Hstep; unfold step; go_unfold; by rewrite Hlook, Hdone).
    destruct (g_pc g) as [| |sub|] eqn:Hpc;
      try (revert Hstep; unfold step; go_unfold;
           by rewrite Hlook, Hdone, Hpc).
    rewrite (step_LDone_closed i g ch sub w) in Hstep by done.
    injection Hstep as <-. split; [done|].
    exists i, g, ch, g, ch. simpl.
    split; [done|]. split; [by rewrite list_insert_id|].
    split; [done|]. by left.
Qed.

Lemma run_cons l sched w w' :
  run (l :: sched) w = Ok tt w' <->
  exists w1, step l w = Ok tt w1 /\ run sched w1 = Ok tt w'.
Proof.
  unfold run. simpl. go_unfold. split.
  - destruct (step l w) as [[] w1| |]; try done. by exists w1.
  - by intros (w1 & -> & Hrun).
Qed.

Lemma run_app s1 s2 w w' :
  run (s1 ++ s2) w = Ok tt w' <->
  exists w1, run s1 w = Ok tt w1 /\ run s2 w1 = Ok tt w'.
Proof.
  revert w. induction s1 as [|l s1 IH]; intros w; simpl.
  - split; [by exists w|]. by intros (w1 & [= <-] & Hrun).
  - rewrite run_cons. split.
    + intros (w1 & Hstep & (w2 & Hs1 & Hs2)%IH). exists w2.
      split; [|done]. apply run_cons. by exists w1.
    + intros (w2 & (w1 & Hstep & Hs1)%run_cons & Hs2). exists w1.
      split; [done|]. apply IH. by exists w2.
Qed.

Lemma Returned_stable_step i l w w' :
  pc_of w i = Some Returned ->
  step l w = Ok tt w' ->
  pc_of w' i = Some Returned.
Proof.
  intros (g & ch & Hlook & Hpc)%pc_of_Some Hstep. apply pc_of_Some.
  destruct (goroutine_label l) eqn:Hl.
  - destruct (step_goroutine l w w' Hl Hstep)
      as (_ & j & g0 & ch0 & g' & ch' & Hj & -> & _ & Hcase).
    destruct (decide (j = i)) as [->|Hne].
    + rewrite Hlook in Hj. injection Hj as <- <-.
      exists g', ch'. split.
      * apply list_lookup_insert_eq. by eapply lookup_lt_Some.
      * destruct Hcase as [(_ & _ & Hret)|(sub & Hsub & _)]; [by apply Hret|].
        by rewrite Hpc in Hsub.
    + exists g, ch. by rewrite list_lookup_insert_ne.
  - destruct (step_api l w w' Hl Hstep) as [extra ->].
    exists g, ch. split; [|done]. by apply lookup_app_l_Some.
Qed.

(** Once a goroutine has returned, no schedule that runs contains a step
    of it, and it stays returned. *)
Lemma Returned_final i sched w w' :
  pc_of w i = Some Returned ->
  run sched w = Ok tt w' ->
  Forall (fun l => label_of i l = false) sched
  /\ pc_of w' i = Some Returned.
Proof.
  revert w. induction sched as [|l sched IH]; intros w Hret Hrun.
  - injection Hrun as <-. by split.
  - apply run_cons in Hrun as (w1 & Hstep & Hrun).
    destruct (IH w1) as [Hall Hret'];
      [by eapply Returned_stable_step|done|].
    split; [|done]. constructor; [|done].
    destruct (label_of i l) eqn:Hl; [|done].
    by rewrite (Returned_blocked i l w) in Hstep.
Qed.

End Interleaving.

Section WorkerLoop.
Context `{Extern} {C R : Type} `{!IRITAClient C} `{!RunManager R}.
Implicit Types w : World C R.

(** C7: when a goroutine at its [select] receives a request at a time at
    which its job has not started or has ended, the iteration makes no
    call at all (the run manager is not invoked and keeps its state,
    nothing is stashed), the function returns, the requests still waiting
    to be sent stay unreceived, and no further step of that goroutine is
    possible. *)
Theorem Subscribe_outside_window_returns i g request ch sub now w :
  goroutines w !! i = Some (g, request :: ch) ->
  g_pc g = AtSelect sub ->
  models.Started (g_job g) now = false \/ models.Ended (g_job g) now = true ->
  exists w',
    step (LRecv i now) w = Ok tt w'
    /\ calls w' = calls w
    /\ count_calls is_create (calls w') = count_calls is_create (calls w)
    /\ runManager w' = runManager w
    /\ memory w' = memory w
    /\ pc_of w' i = Some Returned
    /\ ch_of w' i = Some ch
    /\ (forall l, label_of i l = true -> step l w' = Blocked)
    /\ forall sched w'',
         run sched w' = Ok tt w'' ->
         Forall (fun l => label_of i l = false) sched
         /\ pc_of w'' i = Some Returned.
Proof.
  intros Hlook Hpc Hwin.
  assert (Hcond : negb (models.Started (g_job g) now)
                  || models.Ended (g_job g) now = true).
  { destruct Hwin as [-> | ->]; [done|]. apply orb_true_r. }
  eexists. split; [by eapply step_LRecv_outside|].
  assert (Hret : pc_of
                   (set_goroutines
                      (alter (fun gc => (with_pc Returned (fst gc), snd gc)) i
                         (alter (fun gc => (fst gc, ch)) i (goroutines w)))
                      w) i = Some Returned).
  { unfold pc_of. simpl. by rewrite lookup_set_pc_set_ch, Hlook. }
  split; [done|]. split; [done|]. split; [done|]. split; [done|].
  split; [done|]. split.
  { unfold ch_of. simpl. by rewrite lookup_set_pc_set_ch, Hlook. }
  split.
  - intros l Hl. by eapply Returned_blocked.
  - intros sched w'' Hrun. by eapply Returned_final.
Qed.

(** C1 (as amended): when a goroutine at its [select] receives a request
    inside the job's window and [RunManager.Create] returns an error, the
    iteration calls [Create] once, reports the error to the logger and
    stashes nothing in the side-store; then the function returns: the loop
    does not go on, no [Unsubscribe] is made and no further step of that
    goroutine is possible. *)
Theorem Subscribe_trigger_error_returns i g request ch sub now err r' w :
  goroutines w !! i = Some (g, request :: ch) ->
  g_pc g = AtSelect sub ->
  models.Started (g_job g) now = true ->
  models.Ended (g_job g) now = false ->
  Create (models.ID (g_job g)) (g_initiator g) (runManager w) = (inr err, r') ->
  exists w',
    step (LRecv i now) w = Ok tt w'
    /\ calls w' = calls w
         ++ [CallCreate (models.ID (g_job g)) (g_initiator g);
             CallLoggerError err]
    /\ memory w' = memory w
    /\ count_calls is_add_to_memory (calls w')
       = count_calls is_add_to_memory (calls w)
    /\ count_calls is_any_unsubscribe (calls w')
       = count_calls is_any_unsubscribe (calls w)
    /\ pc_of w' i = Some Returned
    /\ (forall l, label_of i l = true -> step l w' = Blocked)
    /\ forall sched w'',
         run sched w' = Ok tt w'' ->
         Forall (fun l => label_of i l = false) sched
         /\ pc_of w'' i = Some Returned.
Proof.
  intros Hlook Hpc Hstarted Hended Hcreate.
  assert (Hcond : negb (models.Started (g_job g) now)
                  || models.Ended (g_job g) now = false)
    by (by rewrite Hstarted, Hended).
  eexists. split; [by eapply step_LRecv_create_error|].
  match goal with
  | |- context [pc_of ?w' i] =>
      assert (Hret : pc_of w' i = Some Returned)
  end.
  { unfold pc_of. simpl. by rewrite lookup_set_pc_set_ch, Hlook. }
  split; [done|]. split; [done|].
  split.
  { unfold count_calls. simpl.
    by rewrite List.filter_app, length_app, Nat.add_0_r. }
  split.
  { unfold count_calls. simpl.
    by rewrite List.filter_app, length_app, Nat.add_0_r. }
  split; [done|]. split.
  - intros l Hl. by eapply Returned_blocked.
  - intros sched w'' Hrun. by eapply Returned_final.
Qed.

(** C2 (the code at the failing input, in general): when [done] is closed
    and a goroutine at its [select] takes the [done] case, the iteration
    calls [Unsubscribe] on the goroutine's handle and prints, and the
    goroutine is back at its [select] with [done] still closed: the same
    case can be taken again, with another [Unsubscribe], and so can the
    request case. *)
Theorem Subscribe_done_case_loops i g ch sub w :
  goroutines w !! i = Some (g, ch) ->
  g_pc g = AtSelect sub ->
  done w = chan_closed ->
  exists w' w'',
    step (LDone i) w = Ok tt w'
    /\ calls w' = calls w ++ [CallUnsubscribe sub; CallPrintln "done"]
    /\ pc_of w' i = Some (AtSelect sub)
    /\ done w' = chan_closed
    /\ goroutines w' = goroutines w
    /\ step (LDone i) w' = Ok tt w''
    /\ calls w'' = calls w
         ++ [CallUnsubscribe sub; CallPrintln "done";
             CallUnsubscribe sub; CallPrintln "done"]
    /\ pc_of w'' i = Some (AtSelect sub).
Proof.
  intros Hlook Hpc Hdone.
  eexists _, _. split; [by eapply step_LDone_closed|].
  assert (Hpc' : pc_of w i = Some (AtSelect sub)).
  { apply pc_of_Some. by exists g, ch. }
  split; [done|]. split; [done|]. split; [done|]. split; [done|].
  split; [by eapply step_LDone_closed|].
  split; [|done]. simpl. by rewrite <- app_assoc.
Qed.

End WorkerLoop.

Section Registration.
Context `{Extern} {C R : Type} `{!IRITAClient C} `{!RunManager R}.
Implicit Types w : World C R.

Lemma filter_key_absent {V} (k : string) (l : list (string * V)) :
  k ∉ l.*1 ->
  List.filter (fun kv => String.eqb (fst kv) k) l = [].
Proof.
  induction l as [|[k' v'] l IH]; simpl; [done|].
  intros Hk. apply not_elem_of_cons in Hk as [Hne Hk].
  destruct (String.eqb_spec k' k) as [->|_]; [done|]. by apply IH.
Qed.

Lemma filter_key_present {V} (k : string) (v : V) (l : list (string * V)) :
  NoDup l.*1 ->
  (k, v) ∈ l ->
  List.filter (fun kv => String.eqb (fst kv) k) l = [(k, v)].
Proof.
  induction l as [|[k' v'] l IH]; simpl; intros Hnd Hin.
  - by apply elem_of_nil in Hin.
  - apply NoDup_cons in Hnd as [Hk' Hnd].
    apply elem_of_cons in Hin as [[= <- <-]|Hin].
    + rewrite String.eqb_refl. f_equal. by apply filter_key_absent.
    + destruct (String.eqb_spec k' k) as [->|_]; [|by apply IH].
      destruct Hk'. apply list_elem_of_fmap. by exists (k, v).
Qed.

(** The registry is a map: it holds at most one handle per identifier. *)
Lemma handles_of_lookup job w :
  handles_of job w
  = match jobSubscriptions w !! models.ID job with
    | Some sub => [sub]
    | None => []
    end.
Proof.
  unfold handles_of.
  destruct (jobSubscriptions w !! models.ID job) as [sub|] eqn:Hsub.
  - rewrite (filter_key_present _ sub); [done| |].
    + apply NoDup_fst_map_to_list.
    + by apply elem_of_map_to_list.
  - rewrite filter_key_absent; [done|].
    intros ([k v] & Hk & Hin)%list_elem_of_fmap. simpl in Hk. subst k.
    apply elem_of_map_to_list in Hin. by rewrite Hsub in Hin.
Qed.

Lemma registered_step_goroutine l w w' :
  goroutine_label l = true ->
  step l w = Ok tt w' ->
  registered w -> registered w'.
Proof.
  intros Hl Hstep Hreg.
  destruct (step_goroutine l w w' Hl Hstep)
    as (_ & i & g & ch & g' & ch' & Hi & Hgs & Hjob & Hcase).
  intros j gj chj Hj Hpast. rewrite Hgs in Hj.
  destruct (decide (i = j)) as [<-|Hne].
  - rewrite list_lookup_insert_eq in Hj by (by eapply lookup_lt_Some).
    injection Hj as <- <-. rewrite Hjob.
    destruct Hcase as [(-> & Hsame & _)|(sub & _ & _ & ->)].
    + apply (Hreg i g ch Hi). by rewrite <- Hsame.
    + rewrite lookup_insert_eq. by eexists.
  - rewrite list_lookup_insert_ne in Hj by done.
    specialize (Hreg j gj chj Hj Hpast).
    destruct Hcase as [(-> & _)|(sub & _ & _ & ->)]; [done|].
    apply lookup_insert_is_Some.
    destruct (decide (models.ID (g_job g) = models.ID (g_job gj)));
      [by left|by right].
Qed.

Lemma registered_spawned job w :
  registered w ->
  registered (set_goroutines (goroutines w ++ spawned job) w).
Proof.
  intros Hreg j gj chj Hj Hpast. simpl in *.
  apply lookup_app_Some in Hj as [Hj|[_ Hj]]; [by eapply Hreg|].
  unfold spawned in Hj. rewrite list_lookup_fmap in Hj.
  destruct (_ !! _); [|done]. injection Hj as <- <-. done.
Qed.

(** Steps of goroutines keep the flag, the number of goroutines and the
    registrations made. *)
Lemma run_goroutines sched w w' :
  Forall (fun l => goroutine_label l = true) sched ->
  run sched w = Ok tt w' ->
  started w' = started w
  /\ length (goroutines w') = length (goroutines w)
  /\ (registered w -> registered w').
Proof.
  intros Hall. revert w.
  induction Hall as [|l sched Hl Hall IH]; intros w Hrun.
  - by injection Hrun as <-.
  - apply run_cons in Hrun as (w1 & Hstep & Hrun).
    destruct (IH w1 Hrun) as (Hst & Hlen & Hreg).
    destruct (step_goroutine l w w1 Hl Hstep)
      as (Hst1 & i & g & ch & g' & ch' & _ & Hgs & _).
    split; [congruence|]. split.
    + by rewrite Hlen, Hgs, length_insert.
    + intros Hw. apply Hreg. by eapply registered_step_goroutine.
Qed.

Lemma spawned_registered_step_goroutine n job l w w' :
  goroutine_label l = true ->
  step l w = Ok tt w' ->
  spawned_registered n job w -> spawned_registered n job w'.
Proof.
  intros Hl Hstep Hinv.
  destruct (step_goroutine l w w' Hl Hstep)
    as (_ & i & g & ch & g' & ch' & Hi & Hgs & Hjob & Hcase).
  intros j gj chj Hn Hj. rewrite Hgs in Hj.
  destruct (decide (i = j)) as [<-|Hne].
  - rewrite list_lookup_insert_eq in Hj by (by eapply lookup_lt_Some).
    injection Hj as <- <-.
    destruct (Hinv i g ch Hn Hi) as [Hg Hpast].
    split; [by rewrite Hjob|]. intros Hpast'.
    destruct Hcase as [(-> & Hsame & _)|(sub & _ & _ & ->)].
    + apply Hpast. by rewrite <- Hsame.
    + rewrite Hg, lookup_insert_eq. by eexists.
  - rewrite list_lookup_insert_ne in Hj by done.
    destruct (Hinv j gj chj Hn Hj) as [Hg Hpast].
    split; [done|]. intros Hpast'. specialize (Hpast Hpast').
    destruct Hcase as [(-> & _)|(sub & _ & _ & ->)]; [done|].
    apply lookup_insert_is_Some.
    destruct (decide (models.ID (g_job g) = models.ID job));
      [by left|by right].
Qed.

Lemma spawned_registered_spawned n job w :
  n <= length (goroutines w) ->
  spawned_registered n job w ->
  spawned_registered n job
    (set_goroutines (goroutines w ++ spawned job) w).
Proof.
  intros Hlen Hinv j gj chj Hn Hj. simpl in *.
  apply lookup_app_Some in Hj as [Hj|[_ Hj]]; [by eapply Hinv|].
  unfold spawned in Hj. rewrite list_lookup_fmap in Hj.
  destruct (_ !! _); [|done]. injection Hj as <- <-. done.
Qed.

Lemma run_goroutines_spawned n job sched w w' :
  Forall (fun l => goroutine_label l = true) sched ->
  run sched w = Ok tt w' ->
  spawned_registered n job w -> spawned_registered n job w'.
Proof.
  intros Hall. revert w.
  induction Hall as [|l sched Hl Hall IH]; intros w Hrun Hinv.
  - by injection Hrun as <-.
  - apply run_cons in Hrun as (w1 & Hstep & Hrun).
    apply (IH w1 Hrun). by eapply spawned_registered_step_goroutine.
Qed.

(** C6 (as amended): when a job is added twice on a started tracker, with
    any steps of goroutines before, between and after the two calls and no
    other call of the API, each call starts one goroutine per interest of
    the job, and the registry holds at most one handle under the job's
    identifier, whatever the number of interests: exactly one as soon as
    one of the goroutines that the two calls started has registered.
    Registering under an identifier that has an entry replaces the handle
    and keeps the size of the registry. *)
Theorem AddJob_twice_one_handle_per_job job s1 s2 s3 w0 w' :
  started w0 = true ->
  Forall (fun l => goroutine_label l = true) s1 ->
  Forall (fun l => goroutine_label l = true) s2 ->
  Forall (fun l => goroutine_label l = true) s3 ->
  run (s1 ++ LAddJob job :: s2 ++ LAddJob job :: s3) w0 = Ok tt w' ->
  length (goroutines w')
  = length (goroutines w0)
    + 2 * length (models.InitiatorsFor job models.InitiatorIritaLog)
  /\ length (handles_of job w') <= 1
  /\ (forall i g ch,
        length (goroutines w0) <= i ->
        goroutines w' !! i = Some (g, ch) ->
        g_job g = job
        /\ (past_registration (g_pc g) = true ->
            exists sub,
              handles_of job w' = [sub]
              /\ jobSubscriptions w' !! models.ID job = Some sub))
  /\ forall w ID old sub,
       jobSubscriptions w !! ID = Some old ->
       exists w1,
         Service.addSubscription ID sub w = Ok tt w1
         /\ jobSubscriptions w1 !! ID = Some sub
         /\ size (jobSubscriptions w1) = size (jobSubscriptions w).
Proof.
  intros Hst Hs1 Hs2 Hs3 Hrun.
  apply run_app in Hrun as (w1 & Hrun1 & Hrun).
  apply run_cons in Hrun as (w2 & Hadd1 & Hrun).
  apply run_app in Hrun as (w3 & Hrun2 & Hrun).
  apply run_cons in Hrun as (w4 & Hadd2 & Hrun3).
  destruct (run_goroutines s1 w0 w1 Hs1 Hrun1) as (Hst1 & Hlen1 & _).
  rewrite step_LAddJob_started in Hadd1 by congruence.
  injection Hadd1 as <-.
  destruct (run_goroutines s2 _ w3 Hs2 Hrun2) as (Hst3 & Hlen3 & _).
  rewrite step_LAddJob_started in Hadd2 by (rewrite Hst3; simpl; congruence).
  injection Hadd2 as <-.
  destruct (run_goroutines s3 _ w' Hs3 Hrun3) as (Hst' & Hlen' & _).
  assert (Hinv0 : spawned_registered (length (goroutines w0)) job w0).
  { intros i g ch Hn Hi. apply lookup_lt_Some in Hi. lia. }
  assert (Hinv : spawned_registered (length (goroutines w0)) job w').
  { apply (run_goroutines_spawned _ _ s3 _ _ Hs3 Hrun3).
    apply spawned_registered_spawned.
    { rewrite Hlen3. simpl. rewrite length_app. lia. }
    apply (run_goroutines_spawned _ _ s2 _ _ Hs2 Hrun2).
    apply spawned_registered_spawned; [lia|].
    by apply (run_goroutines_spawned _ _ s1 _ _ Hs1 Hrun1). }
  split; [|split; [|split]].
  - rewrite Hlen'. simpl. rewrite length_app, Hlen3. simpl.
    rewrite length_app, Hlen1. unfold spawned. rewrite length_map. lia.
  - rewrite handles_of_lookup. destruct (_ !! _); simpl; lia.
  - intros i g ch Hn Hi. destruct (Hinv i g ch Hn Hi) as [Hg Hpast].
    split; [done|]. intros Hpast'.
    destruct (Hpast Hpast') as [sub Hsub]. exists sub.
    by rewrite handles_of_lookup, Hsub.
  - intros w ID old sub Hold. eexists. split; [reflexivity|]. simpl.
    split; [apply lookup_insert_eq|].
    apply map_size_insert_Some. by eexists.
Qed.

End Registration.

Section Steps.
Context `{Extern} {C R : Type} `{!IRITAClient C} `{!RunManager R}.
Implicit Types w : World C R.

Lemma step_LGo_subscribe i g ch w :
  goroutines w !! i = Some (g, ch) ->
  g_pc g = AtSubscribe ->
  step (LGo i) w
  = let q := Service.Subscribe_builder (g_initiator g) in
    let w1 :=
      set_client (snd (SubscribeNewBlock q (client w)))
        (set_calls (calls w ++ [CallSubscribeNewBlock q]) w) in
    match snd (fst (SubscribeNewBlock q (client w))) with
    | Some e => Panic e w1
    | None =>
        Ok tt
          (set_goroutines
             (<[i := (with_pc
                        (AtAddSubscription
                           (fst (fst (SubscribeNewBlock q (client w))))) g,
                      ch)]> (goroutines w))
             w1)
    end.
Proof.
  intros Hlook Hpc. unfold step. go_unfold. rewrite Hlook, Hpc.
  unfold Service.Subscribe_open, Client_SubscribeNewBlock, record, set_pc.
  go_unfold. simpl.
  destruct (SubscribeNewBlock _ (client w)) as [[sub [e|]] c']; simpl; [done|].
  by rewrite (alter_lookup_insert _ i _ _ Hlook).
Qed.

Lemma step_LGo_register i g ch sub w :
  goroutines w !! i = Some (g, ch) ->
  g_pc g = AtAddSubscription sub ->
  step (LGo i) w
  = Ok tt
      (set_goroutines (<[i := (with_pc (AtSelect sub) g, ch)]> (goroutines w))
         (set_jobSubscriptions
            (<[models.ID (g_job g) := sub]> (jobSubscriptions w)) w)).
Proof.
  intros Hlook Hpc. unfold step. go_unfold. rewrite Hlook, Hpc.
  unfold Service.addSubscription, set_pc. go_unfold. simpl.
  by rewrite (alter_lookup_insert _ i _ _ Hlook).
Qed.

Lemma step_LBlock_deliver i g ch events w :
  goroutines w !! i = Some (g, ch) ->
  g_pc g <> AtSubscribe ->
  let ids :=
    matched_ids events (models.IritaServiceName (g_initiator g))
      (fst (AccAddressFromBech32
              (models.IritaServiceProvider (g_initiator g)))) in
  exists c',
    step (LBlock i events) w
    = Ok tt
        (set_goroutines
           (<[i := (g, ch ++ (lookups ids (client w)).*1)]> (goroutines w))
           (set_client c'
              (set_calls (calls w ++ List.map CallQueryServiceRequest ids) w))).
Proof.
  intros Hlook Hpc ids.
  destruct (GetServiceResquest_requests_lookups ids [] w)
    as (w1 & Hrun & Hcalls).
  destruct (GetServiceResquest_requests_frame _ _ _ _ _ Hrun)
    as (c' & cs & ->).
  simpl in Hcalls. subst cs. exists c'.
  assert (Hcb : Service.Subscribe_callback (g_initiator g) events w
                = Ok ((lookups ids (client w)).*1)
                    (set_calls
                       (calls w ++ List.map CallQueryServiceRequest ids)
                       (set_client c' w))).
  { unfold Service.Subscribe_callback, Service.GetServiceResquest.
    rewrite GetServiceResquest_ids_matched. exact Hrun. }
  unfold step. go_unfold. rewrite Hlook.
  destruct (g_pc g) eqn:Hg; try done; rewrite Hcb; unfold set_ch; go_unfold;
    simpl; by rewrite (alter_lookup_insert _ i _ _ Hlook).
Qed.

(** The outcome of a step of a goroutine: one of the paths of
    [goroutine_step], the panic of [Subscribe] on a subscription that cannot
    be opened, or a step that is not enabled. *)
Lemma step_goroutine_result l w :
  goroutine_label l = true ->
  match step l w with
  | Ok _ w' => goroutine_step l w w'
  | Panic msg w' =>
      exists i g ch,
        l = LGo i
        /\ goroutines w !! i = Some (g, ch)
        /\ g_pc g = AtSubscribe
        /\ snd (fst (SubscribeNewBlock
                       (Service.Subscribe_builder (g_initiator g)) (client w)))
           = Some msg
        /\ w' = set_client
                  (snd (SubscribeNewBlock
                          (Service.Subscribe_builder (g_initiator g))
                          (client w)))
                  (set_calls
                     (calls w
                      ++ [CallSubscribeNewBlock
                            (Service.Subscribe_builder (g_initiator g))])
                     w)
  | Blocked => True
  end.
Proof.
  intros Hl.
  destruct l as [| | | |i|i events|i now|i]; try done; clear Hl.
  - destruct (goroutines w !! i) as [[g ch]|] eqn:Hlook;
      [|unfold step; go_unfold; by rewrite Hlook].
    destruct (g_pc g) as [|sub|sub|] eqn:Hpc;
      try (unfold step; go_unfold; by rewrite Hlook, Hpc).
    + rewrite (step_LGo_subscribe i g ch w Hlook Hpc). cbv zeta.
      destruct (SubscribeNewBlock _ (client w)) as [[sub [e|]] c'] eqn:Hsub;
        simpl.
      * exists i, g, ch. by rewrite Hsub.
      * by eapply step_open.
    + rewrite (step_LGo_register i g ch sub w Hlook Hpc).
      by apply step_register.
  - destruct (goroutines w !! i) as [[g ch]|] eqn:Hlook;
      [|unfold step; go_unfold; by rewrite Hlook].
    assert (Hpc : g_pc g = AtSubscribe \/ g_pc g <> AtSubscribe)
      by (destruct (g_pc g); (by left) || (by right)).
    destruct Hpc as [Hpc|Hpc];
      [unfold step; go_unfold; by rewrite Hlook, Hpc|].
    destruct (step_LBlock_deliver i g ch events w Hlook Hpc) as [c' ->].
    by apply step_block.
  - destruct (goroutines w !! i) as [[g [|request ch]]|] eqn:Hlook;
      try (unfold step; go_unfold; by rewrite Hlook).
    destruct (g_pc g) as [| |sub|] eqn:Hpc;
      try (unfold step; go_unfold; by rewrite Hlook, Hpc).
    destruct (negb (models.Started (g_job g) now)
              || models.Ended (g_job g) now) eqn:Hwin.
    + rewrite (step_LRecv_outside i g request ch sub now w) by done.
      rewrite (alter_alter_lookup_insert _ _ i _ _ Hlook). simpl.
      by eapply step_outside.
    + destruct (Create (models.ID (g_job g)) (g_initiator g) (runManager w))
        as [[jobRun|err] r'] eqn:Hcreate.
      * pose proof (step_LRecv_create_ok i g request ch sub now jobRun r' w
                      Hlook Hpc Hwin Hcreate) as Hok.
        cbv zeta in Hok. rewrite Hok.
        rewrite (alter_lookup_insert _ i _ _ Hlook). simpl.
        by eapply step_create_ok.
      * rewrite (step_LRecv_create_error i g request ch sub now err r' w)
          by done.
        rewrite (alter_alter_lookup_insert _ _ i _ _ Hlook). simpl.
        by eapply step_create_error.
  - destruct (goroutines w !! i) as [[g ch]|] eqn:Hlook;
      [|unfold step; go_unfold; rewrite Hlook; by destruct (done w)].
    destruct (done w) eqn:Hdone;
      try (unfold step; go_unfold; by rewrite Hlook, Hdone).
    destruct (g_pc g) as [| |sub|] eqn:Hpc;
      try (unfold step; go_unfold; by rewrite Hlook, Hdone, Hpc).
    rewrite (step_LDone_closed i g ch sub w) by done.
    by eapply step_done.
Qed.

Lemma step_goroutine_step l w w' :
  goroutine_label l = true ->
  step l w = Ok tt w' ->
  goroutine_step l w w'.
Proof.
  intros Hl Hstep. pose proof (step_goroutine_result l w Hl) as Hres.
  by rewrite Hstep in Hres.
Qed.

(** What a step of a goroutine leaves alone: the flag, the channel, the
    store and the gauge.  The registry keeps its keys, and the calls made
    are added at the end of the record; an [Unsubscribe] among them means
    that [done] is closed. *)
Lemma goroutine_step_frame l w w' :
  goroutine_step l w w' ->
  started w' = started w
  /\ done w' = done w
  /\ store_jobs w' = store_jobs w
  /\ numberJobSubscriptions w' = numberJobSubscriptions w
  /\ (forall k, is_Some (jobSubscriptions w !! k) ->
                is_Some (jobSubscriptions w' !! k))
  /\ exists new,
       calls w' = calls w ++ new
       /\ (count_calls is_any_unsubscribe new = 0 \/ done w = chan_closed).
Proof.
  intros Hstep.
  destruct Hstep; simpl;
    (split; [done|]); (split; [done|]); (split; [done|]); (split; [done|]).
  - split; [done|]. eexists. split; [reflexivity|]. by left.
  - split.
    + intros k Hk. apply lookup_insert_is_Some.
      destruct (decide (models.ID (g_job g) = k)); [by left|by right].
    + exists []. split; [by rewrite app_nil_r|by left].
  - split; [done|]. eexists. split; [reflexivity|]. left.
    unfold count_calls. by induction ids as [|id ids' IH].
  - split; [done|]. exists []. split; [by rewrite app_nil_r|by left].
  - split; [done|]. eexists. split; [reflexivity|]. by left.
  - split; [done|]. eexists. split; [reflexivity|]. by left.
  - split; [done|]. eexists. split; [reflexivity|]. by right.
Qed.

Lemma step_LStart w :
  step LStart w
  = if started w then Ok tt w
    else Ok tt
           (set_goroutines (goroutines w ++ stored_spawned (store_jobs w))
              (set_started true (set_done chan_open w))).
Proof.
  unfold step, IritaServiceTracker.Start, Service.Start,
    IritaServiceTracker.store_Jobs.
  go_unfold. destruct (started w); [done|]. simpl.
  rewrite Jobs_visit_spawns; [done|].
  intros j w1. unfold IritaServiceTracker.addJob. by rewrite AddJob_spawns.
Qed.

Lemma step_LStop w :
  step LStop w
  = if started w then
      match done w with
      | chan_open => Ok tt (set_started false (set_done chan_closed w))
      | chan_closed => Panic "close of closed channel" w
      | chan_nil => Panic "close of nil channel" w
      end
    else Ok tt w.
Proof.
  unfold step, IritaServiceTracker.Stop, Service.Stop, close_done.
  go_unfold. destruct (started w); [|done]. by destruct (done w).
Qed.

Lemma step_LAddJob job w :
  step (LAddJob job) w
  = if started w
    then Ok tt (set_goroutines (goroutines w ++ spawned job) w)
    else Ok tt w.
Proof.
  destruct (started w) eqn:Hst; [by apply step_LAddJob_started|].
  unfold step, IritaServiceTracker.AddJob. go_unfold. by rewrite Hst.
Qed.

End Steps.

Section System.
Context `{Extern} {C R : Type} `{!IRITAClient C} `{!RunManager R}.
Implicit Types w : World C R.

Lemma RemoveJob_present_eq ID sub w :
  jobSubscriptions w !! ID = Some sub ->
  Service.RemoveJob ID w
  = Ok None
      (set_client (snd (Unsubscribe sub (client w)))
         (set_calls
            (calls w
             ++ [CallGaugeSet
                   (Z.of_nat (size (delete ID (jobSubscriptions w))));
                 CallUnsubscribe sub])
            (set_numberJobSubscriptions
               (Z.of_nat (size (delete ID (jobSubscriptions w))))
               (set_jobSubscriptions (delete ID (jobSubscriptions w)) w)))).
Proof.
  intros Hsub.
  unfold Service.RemoveJob, numberJobSubscriptions_Set, Client_Unsubscribe,
    record.
  go_unfold. simpl. rewrite Hsub. simpl.
  destruct (Unsubscribe sub (client w)) as [err c']. simpl.
  by rewrite <- app_assoc.
Qed.

Lemma step_LRemoveJob ID w :
  step (LRemoveJob ID) w
  = Ok tt
      (match jobSubscriptions w !! ID with
       | Some sub =>
           set_client (snd (Unsubscribe sub (client w)))
             (set_calls
                (calls w
                 ++ [CallGaugeSet
                       (Z.of_nat (size (delete ID (jobSubscriptions w))));
                     CallUnsubscribe sub])
                (set_numberJobSubscriptions
                   (Z.of_nat (size (delete ID (jobSubscriptions w))))
                   (set_jobSubscriptions (delete ID (jobSubscriptions w)) w)))
       | None =>
           set_numberJobSubscriptions (Z.of_nat (size (jobSubscriptions w)))
             (set_calls
                (calls w
                 ++ [CallGaugeSet (Z.of_nat (size (jobSubscriptions w)))])
                w)
       end).
Proof.
  unfold step, IritaServiceTracker.RemoveJob.
  destruct (jobSubscriptions w !! ID) as [sub|] eqn:Hsub.
  - unfold mbind, M_bind, bind. by rewrite (RemoveJob_present_eq ID sub).
  - unfold mbind, M_bind, bind. by rewrite RemoveJob_absent.
Qed.

Lemma run_cons_eq l sched w :
  run (l :: sched) w
  = match step l w with
    | Ok _ w1 => run sched w1
    | Panic msg w1 => Panic msg w1
    | Blocked => Blocked
    end.
Proof. reflexivity. Qed.

(** A step from a state in which a started tracker has an open [done]
    leads to such a state again, and panics only when a subscription
    cannot be opened. *)
Lemma step_done_open l w :
  subscribe_never_fails ->
  done_open_when_started w ->
  match step l w with
  | Ok _ w' => done_open_when_started w'
  | Panic _ _ => False
  | Blocked => True
  end.
Proof.
  intros Hsub Hinv. destruct (goroutine_label l) eqn:Hl.
  - pose proof (step_goroutine_result l w Hl) as Hres.
    destruct (step l w) as [[] w'|msg w'|]; [| |done].
    + apply goroutine_step_frame in Hres as (Hst & Hdone & _).
      unfold done_open_when_started. by rewrite Hst, Hdone.
    + destruct Hres as (i & g & ch & _ & _ & _ & Herr & _).
      by rewrite Hsub in Herr.
  - destruct l as [| |job|ID| | | |]; try done.
    + rewrite step_LStart. by destruct (started w).
    + rewrite step_LStop. destruct (started w) eqn:Hst; [|done].
      by rewrite (Hinv Hst).
    + rewrite step_LAddJob. by destruct (started w).
    + rewrite step_LRemoveJob. by destruct (jobSubscriptions w !! ID).
Qed.

Lemma run_done_open sched w :
  subscribe_never_fails ->
  done_open_when_started w ->
  is_panic (run sched w) = false.
Proof.
  intros Hsub. revert w. induction sched as [|l sched IH]; intros w Hinv.
  - done.
  - rewrite run_cons_eq. pose proof (step_done_open l w Hsub Hinv) as Hstep.
    destruct (step l w) as [[] w1|msg w1|]; [by apply IH|done|done].
Qed.

(** X1: with a client that opens every subscription, no schedule of API
    calls and goroutine steps on a new tracker panics: [Stop] is only ever
    reached with an open [done] channel, whatever the order of [Start],
    [Stop], [AddJob] and [RemoveJob]. *)
Theorem tracker_panics_only_on_subscribe_failure sched
    (client : C) (store : list models.JobSpec) (runManager : R) :
  subscribe_never_fails ->
  is_panic (run sched (NewIritaServiceTracker client store runManager)) = false.
Proof.
  intros Hsub. apply run_done_open; [done|]. intros Hst. done.
Qed.

(** X2: when the subscription of a goroutine cannot be opened, its first
    step panics with the client's error, after the one call to
    [SubscribeNewBlock] and before anything is registered; every schedule
    that starts with this step ends in that panic. *)
Theorem Subscribe_open_failure_panics i g ch e sched w :
  goroutines w !! i = Some (g, ch) ->
  g_pc g = AtSubscribe ->
  snd (fst (SubscribeNewBlock (Service.Subscribe_builder (g_initiator g))
              (client w))) = Some e ->
  exists w',
    step (LGo i) w = Panic e w'
    /\ run (LGo i :: sched) w = Panic e w'
    /\ jobSubscriptions w' = jobSubscriptions w
    /\ goroutines w' = goroutines w
    /\ calls w' = calls w
         ++ [CallSubscribeNewBlock (Service.Subscribe_builder (g_initiator g))].
Proof.
  intros Hlook Hpc Herr.
  pose proof (step_LGo_subscribe i g ch w Hlook Hpc) as Hstep.
  cbv zeta in Hstep. rewrite Herr in Hstep.
  eexists. split; [exact Hstep|].
  split; [by rewrite run_cons_eq, Hstep|done].
Qed.

Lemma step_no_remove l w w' :
  removes l = false ->
  step l w = Ok tt w' ->
  numberJobSubscriptions w' = numberJobSubscriptions w
  /\ forall k, is_Some (jobSubscriptions w !! k) ->
               is_Some (jobSubscriptions w' !! k).
Proof.
  intros Hl Hstep. destruct (goroutine_label l) eqn:Hg.
  - apply step_goroutine_step, goroutine_step_frame in Hstep
      as (_ & _ & _ & Hgauge & Hkeys & _); done.
  - destruct l as [| |job|ID| | | |]; try done.
    + rewrite step_LStart in Hstep.
      destruct (started w); by injection Hstep as <-.
    + rewrite step_LStop in Hstep.
      destruct (started w); [destruct (done w)|]; try done;
        by injection Hstep as <-.
    + rewrite step_LAddJob in Hstep.
      destruct (started w); by injection Hstep as <-.
Qed.

(** X3: in a schedule without [RemoveJob], no entry of the registry is ever
    removed and the gauge is never written: [Start], [Stop], [AddJob],
    registrations, block deliveries and loop iterations (the ones in which
    a goroutine returns included) leave every registered identifier in the
    registry and the gauge at the value it had. *)
Theorem registry_kept_without_RemoveJob sched w w' :
  Forall (fun l => removes l = false) sched ->
  run sched w = Ok tt w' ->
  numberJobSubscriptions w' = numberJobSubscriptions w
  /\ dom (jobSubscriptions w) ⊆ dom (jobSubscriptions w')
  /\ size (jobSubscriptions w) <= size (jobSubscriptions w').
Proof.
  intros Hall.
  assert (Hkeys : forall w w', run sched w = Ok tt w' ->
            numberJobSubscriptions w' = numberJobSubscriptions w
            /\ forall k, is_Some (jobSubscriptions w !! k) ->
                         is_Some (jobSubscriptions w' !! k)).
  { induction Hall as [|l sched Hl Hall IH]; intros w1 w2 Hrun.
    - by injection Hrun as <-.
    - apply run_cons in Hrun as (w3 & Hstep & Hrun).
      destruct (step_no_remove l w1 w3 Hl Hstep) as [Hg1 Hk1].
      destruct (IH w3 w2 Hrun) as [Hg2 Hk2].
      split; [congruence|]. intros k Hk. by apply Hk2, Hk1. }
  intros Hrun. destruct (Hkeys w w' Hrun) as [Hgauge Hsome].
  assert (Hdom : dom (jobSubscriptions w) ⊆ dom (jobSubscriptions w')).
  { intros k Hk. apply elem_of_dom. apply Hsome. by apply elem_of_dom. }
  split; [done|]. split; [done|].
  rewrite <- !size_dom. by apply subseteq_size.
Qed.



End System.

Section Operations.
Context `{Extern} {C R : Type} `{!IRITAClient C} `{!RunManager R}.
Implicit Types w : World C R.

(** X5: every [RemoveJob], found or not, returns with the identifier absent
    from the registry and the gauge equal to the registry's size; it returns
    nil exactly when the identifier had an entry. *)
Theorem RemoveJob_sets_gauge ID w :
  exists e w',
    Service.RemoveJob ID w = Ok e w'
    /\ jobSubscriptions w' = delete ID (jobSubscriptions w)
    /\ jobSubscriptions w' !! ID = None
    /\ numberJobSubscriptions w' = Z.of_nat (size (jobSubscriptions w'))
    /\ (e = None <-> is_Some (jobSubscriptions w !! ID)).
Proof.
  destruct (jobSubscriptions w !! ID) as [sub|] eqn:Hsub.
  - eexists _, _. split; [by apply RemoveJob_present_eq|]. simpl.
    split; [done|]. split; [apply lookup_delete_eq|]. split; [done|].
    split; [by eexists|done].
  - eexists _, _. split; [by apply RemoveJob_absent|]. simpl.
    split; [by rewrite delete_id|]. split; [done|]. split; [done|].
    split; [done|]. by intros [? ?].
Qed.

(** X6: removing the same job a second time fails with the not-found error
    and makes no second [Unsubscribe]. *)
Theorem RemoveJob_twice_not_found ID w :
  exists e w1 w2,
    Service.RemoveJob ID w = Ok e w1
    /\ Service.RemoveJob ID w1
       = Ok (Some ("JobSubscriber#RemoveJob: job " +:+ ID +:+ " not found")) w2
    /\ jobSubscriptions w2 = jobSubscriptions w1
    /\ count_calls is_any_unsubscribe (calls w2)
       = count_calls is_any_unsubscribe (calls w1).
Proof.
  assert (Hfirst : exists e w1,
            Service.RemoveJob ID w = Ok e w1
            /\ jobSubscriptions w1 !! ID = None).
  { destruct (jobSubscriptions w !! ID) as [sub|] eqn:Hsub.
    - eexists _, _. split; [by apply RemoveJob_present_eq|].
      apply lookup_delete_eq.
    - eexists _, _. split; [by apply RemoveJob_absent|done]. }
  destruct Hfirst as (e & w1 & Hrun & Habs).
  exists e, w1. eexists. split; [done|].
  split; [by apply RemoveJob_absent|]. simpl. split; [done|].
  unfold count_calls. by rewrite List.filter_app, length_app, Nat.add_0_r.
Qed.

(** X7: registering a handle and then removing the job unsubscribes exactly
    the handle just registered and leaves the registry without the
    identifier; a handle that the registration replaced is not
    unsubscribed. *)
Theorem addSubscription_then_RemoveJob ID sub w :
  exists w1 w2,
    Service.addSubscription ID sub w = Ok tt w1
    /\ Service.RemoveJob ID w1 = Ok None w2
    /\ jobSubscriptions w2 = delete ID (jobSubscriptions w)
    /\ calls w2
       = calls w
         ++ [CallGaugeSet (Z.of_nat (size (delete ID (jobSubscriptions w))));
             CallUnsubscribe sub]
    /\ numberJobSubscriptions w2 = Z.of_nat (size (jobSubscriptions w2)).
Proof.
  eexists _, _. split; [reflexivity|].
  split; [apply (RemoveJob_present_eq ID sub); apply lookup_insert_eq|].
  simpl. by rewrite delete_insert_eq.
Qed.

(** X8: [RemoveJob] does not stop the goroutine of the job: a goroutine
    that was at its [select] with a request waiting still receives it after
    the removal and, inside the window, creates a run and stashes the
    request. *)
Theorem RemoveJob_leaves_goroutine_running i g request ch sub now jobRun r' w :
  goroutines w !! i = Some (g, request :: ch) ->
  g_pc g = AtSelect sub ->
  negb (models.Started (g_job g) now) || models.Ended (g_job g) now = false ->
  Create (models.ID (g_job g)) (g_initiator g) (runManager w) = (inl jobRun, r') ->
  exists e w1 w2,
    Service.RemoveJob (models.ID (g_job g)) w = Ok e w1
    /\ goroutines w1 = goroutines w
    /\ step (LRecv i now) w1 = Ok tt w2
    /\ calls w2
       = calls w1
         ++ [CallCreate (models.ID (g_job g)) (g_initiator g);
             CallAddToMemory (models.GetID jobRun)
               {| store.RequestResponse := request;
                  store.Provider :=
                    models.IritaServiceProvider (g_initiator g) |}]
    /\ pc_of w2 i = Some (AtSelect sub).
Proof.
  intros Hlook Hpc Hwin Hcreate.
  assert (Hrun : exists e w1,
            Service.RemoveJob (models.ID (g_job g)) w = Ok e w1
            /\ goroutines w1 = goroutines w
            /\ runManager w1 = runManager w).
  { destruct (jobSubscriptions w !! models.ID (g_job g)) as [s0|] eqn:Hsub.
    - eexists _, _. split; [by apply RemoveJob_present_eq|done].
    - eexists _, _. split; [by apply RemoveJob_absent|done]. }
  destruct Hrun as (e & w1 & Hrun & Hgs & Hrm).
  exists e, w1. eexists. split; [done|]. split; [done|].
  rewrite <- Hgs in Hlook. rewrite <- Hrm in Hcreate.
  pose proof (step_LRecv_create_ok i g request ch sub now jobRun r' w1
                Hlook Hpc Hwin Hcreate) as Hok.
  cbv zeta in Hok. split; [exact Hok|]. simpl. split; [done|].
  apply pc_of_Some. exists g, ch. simpl.
  by rewrite list_lookup_alter_eq, Hlook.
Qed.

(** X9: [AddJob] on a started tracker only starts goroutines, one per
    interest of the tracker's kind and in their order, each at the entry of
    [Subscribe]: it opens no subscription, registers nothing and makes no
    call itself, and for a job without such an interest it changes
    nothing. *)
Theorem AddJob_only_starts_goroutines job w :
  started w = true ->
  exists w',
    IritaServiceTracker.AddJob job w = Ok tt w'
    /\ goroutines w' = goroutines w ++ spawned job
    /\ length (goroutines w')
       = length (goroutines w)
         + length (models.InitiatorsFor job models.InitiatorIritaLog)
    /\ jobSubscriptions w' = jobSubscriptions w
    /\ calls w' = calls w
    /\ client w' = client w
    /\ (models.InitiatorsFor job models.InitiatorIritaLog = [] -> w' = w).
Proof.
  intros Hst. eexists. split.
  { pose proof (step_LAddJob job w) as Hstep. rewrite Hst in Hstep.
    exact Hstep. }
  simpl. split; [done|].
  split; [by rewrite length_app; unfold spawned; rewrite length_map|].
  split; [done|]. split; [done|]. split; [done|].
  intros Hnone. unfold spawned. rewrite Hnone. simpl.
  by rewrite app_nil_r, set_goroutines_id.
Qed.

Lemma stored_spawned_entry jobs :
  Forall (fun gc => g_pc (fst gc) = AtSubscribe /\ snd gc = [])
    (stored_spawned jobs).
Proof.
  unfold stored_spawned.
  induction (List.filter _ jobs) as [|j js IH]; simpl; [done|].
  apply Forall_app. split; [|done].
  unfold spawned. by induction (models.InitiatorsFor j _); constructor.
Qed.

(** X10: [Start] on a stopped tracker returns nil with the flag set and a
    fresh open [done] channel; it keeps the goroutines there are and adds
    new ones, all at the entry of [Subscribe]; it opens no subscription,
    registers nothing and makes no call itself. *)
Theorem Start_stopped_starts_goroutines w :
  started w = false ->
  exists w',
    IritaServiceTracker.Start w = Ok None w'
    /\ started w' = true
    /\ done w' = chan_open
    /\ goroutines w' = goroutines w ++ stored_spawned (store_jobs w)
    /\ Forall (fun gc => g_pc (fst gc) = AtSubscribe /\ snd gc = [])
         (stored_spawned (store_jobs w))
    /\ jobSubscriptions w' = jobSubscriptions w
    /\ calls w' = calls w
    /\ client w' = client w.
Proof.
  intros Hst. eexists. split.
  { unfold IritaServiceTracker.Start, Service.Start,
      IritaServiceTracker.store_Jobs.
    go_unfold. rewrite Hst. simpl.
    rewrite Jobs_visit_spawns; [reflexivity|].
    intros j w1. unfold IritaServiceTracker.addJob. by rewrite AddJob_spawns. }
  simpl. repeat (split; [done|]).
  split; [apply stored_spawned_entry|done].
Qed.

(** X11: a tracker can be restarted: after [Stop] on a started tracker,
    [Start] returns nil again with a new open [done] channel.  Neither call
    removes a goroutine or an entry of the registry, so the goroutines of
    the first start are still there next to the ones the second start
    adds. *)
Theorem Stop_then_Start_restarts w :
  started w = true ->
  done w = chan_open ->
  exists w1 w2,
    IritaServiceTracker.Stop w = Ok tt w1
    /\ done w1 = chan_closed
    /\ IritaServiceTracker.Start w1 = Ok None w2
    /\ started w2 = true
    /\ done w2 = chan_open
    /\ goroutines w2 = goroutines w ++ stored_spawned (store_jobs w)
    /\ jobSubscriptions w2 = jobSubscriptions w.
Proof.
  intros Hst Hdone.
  pose proof (step_LStop w) as Hstop. rewrite Hst, Hdone in Hstop.
  eexists _, _. split; [exact Hstop|]. split; [done|].
  split.
  { unfold IritaServiceTracker.Start, Service.Start,
      IritaServiceTracker.store_Jobs.
    go_unfold. simpl.
    rewrite Jobs_visit_spawns; [reflexivity|].
    intros j w1. unfold IritaServiceTracker.addJob. by rewrite AddJob_spawns. }
  done.
Qed.

(** X12: when a goroutine at its [select] receives a request inside the
    job's window and [RunManager.Create] returns a run, the iteration makes
    that one call, stashes the request and the interest's provider under
    the run's identifier, and goes back to the [select] with the remaining
    requests still waiting. *)
Theorem Subscribe_trigger_success_stashes i g request ch sub now jobRun r' w :
  goroutines w !! i = Some (g, request :: ch) ->
  g_pc g = AtSelect sub ->
  models.Started (g_job g) now = true ->
  models.Ended (g_job g) now = false ->
  Create (models.ID (g_job g)) (g_initiator g) (runManager w) = (inl jobRun, r') ->
  exists w',
    step (LRecv i now) w = Ok tt w'
    /\ calls w'
       = calls w
         ++ [CallCreate (models.ID (g_job g)) (g_initiator g);
             CallAddToMemory (models.GetID jobRun)
               {| store.RequestResponse := request;
                  store.Provider :=
                    models.IritaServiceProvider (g_initiator g) |}]
    /\ memory w' !! models.GetID jobRun
       = Some {| store.RequestResponse := request;
                 store.Provider :=
                   models.IritaServiceProvider (g_initiator g) |}
    /\ runManager w' = r'
    /\ pc_of w' i = Some (AtSelect sub)
    /\ ch_of w' i = Some ch
    /\ jobSubscriptions w' = jobSubscriptions w.
Proof.
  intros Hlook Hpc Hstarted Hended Hcreate.
  assert (Hwin : negb (models.Started (g_job g) now)
                 || models.Ended (g_job g) now = false)
    by (by rewrite Hstarted, Hended).
  pose proof (step_LRecv_create_ok i g request ch sub now jobRun r' w
                Hlook Hpc Hwin Hcreate) as Hok.
  cbv zeta in Hok. eexists. split; [exact Hok|]. simpl.
  split; [done|]. split; [apply lookup_insert_eq|]. split; [done|].
  split; [|split; [|done]].
  - apply pc_of_Some. exists g, ch. simpl.
    by rewrite list_lookup_alter_eq, Hlook.
  - unfold ch_of. simpl. by rewrite list_lookup_alter_eq, Hlook.
Qed.

(** X13: the matcher works record by record: the identifiers of two batches
    put one after the other are those of the first followed by those of the
    second. *)
Theorem GetServiceResquest_ids_app events1 events2 name prov :
  Service.GetServiceResquest_ids
    (types.Filter (events1 ++ events2) "new_batch_request_provider")
    name prov []
  = Service.GetServiceResquest_ids
      (types.Filter events1 "new_batch_request_provider") name prov []
    ++ Service.GetServiceResquest_ids
         (types.Filter events2 "new_batch_request_provider") name prov [].
Proof.
  rewrite !GetServiceResquest_ids_matched. unfold matched_ids.
  by rewrite List.filter_app, List.map_app, concat_app.
Qed.

(** X14: a batch in which no record has the event type, the service name
    and the provider of the interest resolves to no request: the lookup
    collaborator is not called and the state is left as it was. *)
Theorem GetServiceResquest_no_match events name prov w :
  (forall e, e ∈ events -> record_matches name prov e = false) ->
  Service.GetServiceResquest events name prov w = Ok [] w.
Proof.
  intros Hnone. unfold Service.GetServiceResquest.
  rewrite GetServiceResquest_ids_matched. unfold matched_ids.
  assert (Hfilter : List.filter (record_matches name prov) events = []).
  { induction events as [|e events IH]; simpl; [done|].
    rewrite (Hnone e) by left. apply IH. intros e' He'. apply Hnone.
    by right. }
  by rewrite Hfilter.
Qed.

End Operations.

Section Aftermath.
Context `{Extern} {C R : Type} `{!IRITAClient C} `{!RunManager R}.
Implicit Types w : World C R.

(** X15: the subscription of a goroutine that has returned stays served: a
    block delivered to its callback still asks the lookup collaborator once
    per matched identifier, and the resolved requests queue up behind the
    ones already waiting, where no step of the goroutine can receive
    them. *)
Theorem Returned_goroutine_still_served i g ch events w :
  goroutines w !! i = Some (g, ch) ->
  g_pc g = Returned ->
  let ids :=
    matched_ids events (models.IritaServiceName (g_initiator g))
      (fst (AccAddressFromBech32
              (models.IritaServiceProvider (g_initiator g)))) in
  exists w',
    step (LBlock i events) w = Ok tt w'
    /\ calls w' = calls w ++ List.map CallQueryServiceRequest ids
    /\ ch_of w' i = Some (ch ++ (lookups ids (client w)).*1)
    /\ pc_of w' i = Some Returned
    /\ forall l, label_of i l = true -> step l w' = Blocked.
Proof.
  intros Hlook Hpc ids.
  destruct (step_LBlock_deliver i g ch events w Hlook) as [c' Hstep];
    [by rewrite Hpc|].
  eexists. split; [exact Hstep|]. simpl. split; [done|].
  assert (Hlt : i < length (goroutines w)) by (by eapply lookup_lt_Some).
  assert (Hret : pc_of
                   (set_goroutines
                      (<[i := (g, ch ++ (lookups ids (client w)).*1)]>
                         (goroutines w))
                      (set_client c'
                         (set_calls
                            (calls w ++ List.map CallQueryServiceRequest ids)
                            w))) i = Some Returned).
  { unfold pc_of. simpl. by rewrite list_lookup_insert_eq, <- Hpc. }
  split; [|split; [exact Hret|]].
  - unfold ch_of. simpl. by rewrite list_lookup_insert_eq.
  - intros l Hl. by eapply Returned_blocked.
Qed.

Lemma keys_registered_extend extra w w' :
  goroutines w' = goroutines w ++ extra ->
  (forall k, is_Some (jobSubscriptions w' !! k) ->
             is_Some (jobSubscriptions w !! k)) ->
  keys_registered w -> keys_registered w'.
Proof.
  intros Hgs Hreg Hinv k Hk.
  destruct (Hinv k (Hreg k Hk)) as (i & g & ch & Hi & Hid & Hpast).
  exists i, g, ch. rewrite Hgs. split; [by apply lookup_app_l_Some|done].
Qed.

Lemma keys_registered_step l w w' :
  step l w = Ok tt w' ->
  keys_registered w -> keys_registered w'.
Proof.
  intros Hstep Hinv. destruct (goroutine_label l) eqn:Hl.
  - destruct (step_goroutine l w w' Hl Hstep)
      as (_ & i & g & ch & g' & ch' & Hi & Hgs & Hjob & Hcase).
    assert (Hlt : i < length (goroutines w)) by (by eapply lookup_lt_Some).
    intros k Hk.
    assert (Hold : is_Some (jobSubscriptions w !! k) ->
              exists j gj chj,
                goroutines w' !! j = Some (gj, chj)
                /\ models.ID (g_job gj) = k
                /\ past_registration (g_pc gj) = true).
    { intros Hk0.
      destruct (Hinv k Hk0) as (j & gj & chj & Hj & Hid & Hpast).
      destruct (decide (i = j)) as [<-|Hne].
      - rewrite Hi in Hj. injection Hj as <- <-.
        exists i, g', ch'. rewrite Hgs, list_lookup_insert_eq by done.
        split; [done|]. split; [by rewrite Hjob|].
        destruct Hcase as [(_ & -> & _)|(sub & _ & -> & _)]; done.
      - exists j, gj, chj. rewrite Hgs, list_lookup_insert_ne by done.
        done. }
    destruct Hcase as [(Hreg & _)|(sub & _ & Hpc' & Hreg)].
    + apply Hold. by rewrite <- Hreg.
    + rewrite Hreg in Hk. apply lookup_insert_is_Some in Hk as [<-|[_ Hk]].
      * exists i, g', ch'. rewrite Hgs, list_lookup_insert_eq by done.
        split; [done|]. split; [by rewrite Hjob|]. by rewrite Hpc'.
      * by apply Hold.
  - destruct l as [| |job|ID| | | |]; try done.
    + rewrite step_LStart in Hstep. destruct (started w).
      * by injection Hstep as <-.
      * injection Hstep as <-.
        by eapply (keys_registered_extend (stored_spawned (store_jobs w)) w).
    + rewrite step_LStop in Hstep.
      destruct (started w); [destruct (done w)|]; try done;
        injection Hstep as <-;
        eapply (keys_registered_extend [] w); try done;
        simpl; by rewrite app_nil_r.
    + rewrite step_LAddJob in Hstep. destruct (started w).
      * injection Hstep as <-.
        by eapply (keys_registered_extend (spawned job) w).
      * by injection Hstep as <-.
    + rewrite step_LRemoveJob in Hstep. injection Hstep as <-.
      eapply (keys_registered_extend [] w).
      * destruct (jobSubscriptions w !! ID); simpl; by rewrite app_nil_r.
      * intros k. destruct (jobSubscriptions w !! ID) eqn:Hsub; simpl;
          [|done].
        rewrite lookup_delete_is_Some. by intros [_ ?].
      * done.
Qed.

Lemma registered_step l w w' :
  removes l = false ->
  step l w = Ok tt w' ->
  registered w -> registered w'.
Proof.
  intros Hl Hstep Hreg. destruct (goroutine_label l) eqn:Hg.
  - by eapply registered_step_goroutine.
  - assert (Hext : forall extra,
              Forall (fun gc => g_pc (fst gc) = AtSubscribe /\ snd gc = [])
                extra ->
              registered (set_goroutines (goroutines w ++ extra) w)).
    { intros extra Hall j gj chj Hj Hpast. simpl in *.
      apply lookup_app_Some in Hj as [Hj|[_ Hj]]; [by eapply Hreg|].
      eapply Forall_lookup_1 in Hall as [Hpc _]; [|exact Hj].
      simpl in Hpc. by rewrite Hpc in Hpast. }
    destruct l as [| |job|ID| | | |]; try done.
    + rewrite step_LStart in Hstep. destruct (started w).
      * by injection Hstep as <-.
      * injection Hstep as <-.
        apply (Hext (stored_spawned (store_jobs w))), stored_spawned_entry.
    + rewrite step_LStop in Hstep.
      destruct (started w); [destruct (done w)|]; try done;
        by injection Hstep as <-.
    + rewrite step_LAddJob in Hstep. destruct (started w).
      * injection Hstep as <-. by apply registered_spawned.
      * by injection Hstep as <-.
Qed.

(** X16: on a tracker run from its creation, every key of the registry is
    the identifier of the job of a goroutine that has executed its
    registration; and as long as [RemoveJob] is not called, every goroutine
    that has registered still finds an entry under its job's identifier,
    also after it has returned. *)
Theorem registry_keys_are_registered_jobs sched
    (client : C) (store : list models.JobSpec) (runManager : R) w' :
  run sched (NewIritaServiceTracker client store runManager) = Ok tt w' ->
  (forall k,
     is_Some (jobSubscriptions w' !! k) ->
     exists i g ch,
       goroutines w' !! i = Some (g, ch)
       /\ models.ID (g_job g) = k
       /\ past_registration (g_pc g) = true)
  /\ (Forall (fun l => removes l = false) sched ->
      forall i g ch,
        goroutines w' !! i = Some (g, ch) ->
        past_registration (g_pc g) = true ->
        is_Some (jobSubscriptions w' !! models.ID (g_job g))).
Proof.
  intros Hrun. split.
  - assert (Hgen : forall w, run sched w = Ok tt w' ->
              keys_registered w -> keys_registered w').
    { clear Hrun. induction sched as [|l sched IH]; intros w Hrun Hinv.
      - by injection Hrun as <-.
      - apply run_cons in Hrun as (w1 & Hstep & Hrun).
        apply (IH w1 Hrun). by eapply keys_registered_step. }
    apply (Hgen _ Hrun). intros k Hk. simpl in Hk.
    rewrite lookup_empty in Hk. by destruct Hk.
  - intros Hall.
    assert (Hgen : forall w, run sched w = Ok tt w' ->
              registered w -> registered w').
    { clear Hrun. induction Hall as [|l sched Hl Hall IH]; intros w Hrun Hinv.
      - by injection Hrun as <-.
      - apply run_cons in Hrun as (w1 & Hstep & Hrun).
        apply (IH w1 Hrun). by eapply registered_step. }
    apply (Hgen _ Hrun). intros i g ch Hi. simpl in Hi.
    by rewrite lookup_nil in Hi.
Qed.

End Aftermath.

(** ** The properties on the scenarios *)

(** C1 (counterexample): the job's window is open and the run manager fails;
    after the iteration the goroutine has returned, and the next request,
    still waiting to be sent, cannot be received. *)
Lemma Subscribe_trigger_error_stops_loop :
  let w := scenario.w_looping scenario.J1 true in
  pc_of w 0 = Some (AtSelect (scenario.sub_0 (mock.interest "svcA" "p1")))
  /\ ch_of w 0 = Some [scenario.req_42; scenario.req_42]
  /\ models.Started scenario.J1 5 = true
  /\ models.Ended scenario.J1 5 = false
  /\ fst (Create "J" (mock.interest "svcA" "p1") (runManager w))
     = inr "run manager: cannot create run"
  /\ exists w',
       step (LRecv 0 5) w = Ok tt w'
       /\ pc_of w' 0 = Some Returned
       /\ pc_of w' 0 <> pc_of w 0
       /\ ch_of w' 0 = Some [scenario.req_42]
       /\ step (LRecv 0 6) w' = Blocked.
Proof.
  repeat (split; [vm_compute; reflexivity|]).
  eexists. split; [vm_compute; reflexivity|].
  split; [vm_compute; reflexivity|].
  split; [vm_compute; discriminate|].
  split; vm_compute; reflexivity.
Qed.

(** The amended C1 on the scenario of its counterexample: the failing run
    manager, the job inside its window. *)
Lemma Subscribe_trigger_error_returns_witness :
  exists w',
    step (LRecv 0 5) (scenario.w_looping scenario.J1 true) = Ok tt w'
    /\ calls w'
       = calls (scenario.w_looping scenario.J1 true)
         ++ [CallCreate "J" (mock.interest "svcA" "p1");
             CallLoggerError "run manager: cannot create run"]
    /\ memory w' = memory (scenario.w_looping scenario.J1 true)
    /\ pc_of w' 0 = Some Returned.
Proof.
  destruct (Subscribe_trigger_error_returns 0
              {| g_initiator := mock.interest "svcA" "p1";
                 g_job := scenario.J1;
                 g_pc := AtSelect (scenario.sub_0 (mock.interest "svcA" "p1")) |}
              scenario.req_42 [scenario.req_42]
              (scenario.sub_0 (mock.interest "svcA" "p1")) 5%Z
              "run manager: cannot create run"
              {| mock.invocations := [("J", mock.interest "svcA" "p1")];
                 mock.fail_create := true |}
              (scenario.w_looping scenario.J1 true))
    as (w' & Hstep & Hcalls & Hmem & _ & _ & Hpc & _);
    [vm_compute; reflexivity | reflexivity | reflexivity | reflexivity
    | vm_compute; reflexivity |].
  exists w'. repeat split; assumption.
Defined.

(** The [done] case on the stopped tracker of the scenarios. *)
Lemma Subscribe_done_case_loops_witness :
  exists w' w'',
    step (LDone 0) scenario.w_stopped = Ok tt w'
    /\ pc_of w' 0 = Some (AtSelect (scenario.sub_0 (mock.interest "svcA" "p1")))
    /\ step (LDone 0) w' = Ok tt w''
    /\ calls w''
       = calls scenario.w_stopped
         ++ [CallUnsubscribe (scenario.sub_0 (mock.interest "svcA" "p1"));
             CallPrintln "done";
             CallUnsubscribe (scenario.sub_0 (mock.interest "svcA" "p1"));
             CallPrintln "done"]
    /\ pc_of w'' 0 = Some (AtSelect (scenario.sub_0 (mock.interest "svcA" "p1"))).
Proof.
  destruct (Subscribe_done_case_loops 0
              {| g_initiator := mock.interest "svcA" "p1";
                 g_job := scenario.J1;
                 g_pc := AtSelect (scenario.sub_0 (mock.interest "svcA" "p1")) |}
              [scenario.req_42; scenario.req_42]
              (scenario.sub_0 (mock.interest "svcA" "p1"))
              scenario.w_stopped)
    as (w' & w'' & Hstep & _ & Hpc & _ & _ & Hstep' & Hcalls & Hpc');
    [vm_compute; reflexivity | reflexivity | vm_compute; reflexivity |].
  exists w', w''. repeat split; assumption.
Defined.

(** C2 (the failing input): after [Stop], the goroutine takes the [done]
    case twice and then the request case: two calls to [Unsubscribe] have
    been made, a run has been created after the shutdown, and the goroutine
    is still at its [select]. *)
Lemma Subscribe_after_Stop_keeps_running :
  let w := mock.after [LDone 0; LDone 0; LRecv 0 5] scenario.w_stopped in
  done scenario.w_stopped = chan_closed
  /\ run [LDone 0; LDone 0; LRecv 0 5] scenario.w_stopped = Ok tt w
  /\ count_calls is_any_unsubscribe (calls w) = 2
  /\ count_calls is_create (calls w)
     = S (count_calls is_create (calls scenario.w_stopped))
  /\ pc_of w 0 = Some (AtSelect (scenario.sub_0 (mock.interest "svcA" "p1"))).
Proof.
  cbv zeta. repeat (split; [vm_compute; reflexivity|]).
  vm_compute; reflexivity.
Qed.

(** C5 (the failing input): the first registration on a new tracker leaves
    the gauge at 0 with one entry in the registry. *)
Lemma addSubscription_leaves_gauge_witness :
  exists w',
    Service.addSubscription "J" (scenario.sub_0 (mock.interest "svcA" "p1"))
      (mock.fresh [] false) = Ok tt w'
    /\ size (jobSubscriptions w') = 1
    /\ numberJobSubscriptions w' = 0%Z.
Proof.
  destruct (addSubscription_leaves_gauge "J"
              (scenario.sub_0 (mock.interest "svcA" "p1"))
              (mock.fresh [] false))
    as (w' & Hrun & _ & Hsize & _ & Hgauge & _);
    [reflexivity | reflexivity |].
  exists w'. repeat split; assumption.
Defined.

(** C6 (counterexample): a job with two interests is added twice and its
    four goroutines all register: the registry holds one handle for the two
    (job, interest) pairs, the one of the goroutine that registered last. *)
Lemma AddJob_twice_two_interests_one_handle :
  length (models.InitiatorsFor scenario.J2 models.InitiatorIritaLog) = 2
  /\ run [LAddJob scenario.J2; LAddJob scenario.J2;
          LGo 0; LGo 0; LGo 1; LGo 1; LGo 2; LGo 2; LGo 3; LGo 3]
       scenario.w_started
     = Ok tt scenario.w_J2_twice
  /\ (forall i, i < 4 ->
        past_registration <$> pc_of scenario.w_J2_twice i = Some true)
  /\ length (handles_of scenario.J2 scenario.w_J2_twice) = 1
  /\ length (handles_of scenario.J2 scenario.w_J2_twice)
     <> length (models.InitiatorsFor scenario.J2 models.InitiatorIritaLog)
  /\ types.sub_ID <$> handles_of scenario.J2 scenario.w_J2_twice = ["sub-3"].
Proof.
  split; [reflexivity|]. split; [vm_compute; reflexivity|].
  split.
  { intros i Hi.
    destruct i as [|[|[|[|i]]]]; [vm_compute; reflexivity ..|lia]. }
  split; [vm_compute; reflexivity|].
  split; [vm_compute; discriminate|vm_compute; reflexivity].
Qed.

(** The amended C4 on the record whose list holds a number: the decoding
    fails and the record contributes the two elements the decoder left. *)
Lemma GetServiceResquest_ids_keeps_duplicates_witness :
  Service.GetServiceResquest_ids (H := mock.extern_mixed)
    (types.Filter scenario.block_a_1 "new_batch_request_provider")
    "svcA" "p1" []
  = Service.GetServiceResquest_ids (H := mock.extern_mixed)
      (types.Filter [] "new_batch_request_provider") "svcA" "p1" []
    ++ ["a"; ""]
    ++ Service.GetServiceResquest_ids (H := mock.extern_mixed)
         (types.Filter [] "new_batch_request_provider") "svcA" "p1" [].
Proof.
  destruct (GetServiceResquest_ids_keeps_duplicates (H := mock.extern_mixed)
              scenario.block_a_1 "svcA" "p1")
    as (_ & _ & Hdecode).
  apply (Hdecode []
           (mock.record_for "svcA" "p1" scenario.ids_a_1) []
           ["a"; ""]
           (Some "json: cannot unmarshal number into Go value of type string"));
    [reflexivity | reflexivity | vm_compute; reflexivity].
Defined.

(** The amended C6 on a tracker on which the job was registered and removed
    before: the goroutine of the first of the two calls registers, and the
    registry holds its handle. *)
Lemma AddJob_twice_one_handle_per_job_witness :
  handles_of scenario.J1 scenario.w_removed = []
  /\ length (goroutines scenario.w_removed_twice) = 1 + 2 * 1
  /\ exists sub, handles_of scenario.J1 scenario.w_removed_twice = [sub].
Proof.
  split; [vm_compute; reflexivity|].
  destruct (AddJob_twice_one_handle_per_job scenario.J1
              [] [LGo 1; LGo 1] [] scenario.w_removed
              scenario.w_removed_twice)
    as (Hlen & _ & Hone & _).
  - vm_compute. reflexivity.
  - constructor.
  - repeat constructor.
  - constructor.
  - vm_compute. reflexivity.
  - split; [exact Hlen|].
    destruct (Hone 1
                {| g_initiator := mock.interest "svcA" "p1";
                   g_job := scenario.J1;
                   g_pc := AtSelect
                             {| types.sub_ID := "sub-1";
                                types.sub_Query :=
                                  Service.Subscribe_builder
                                    (mock.interest "svcA" "p1") |} |}
                [])
      as [_ Hsub]; [vm_compute; lia | vm_compute; reflexivity |].
    destruct (Hsub eq_refl) as (sub & Hhandles & _).
    exists sub. exact Hhandles.
Defined.

(** C7 on a job whose window ended at 10, for a request received at 20. *)
Lemma Subscribe_outside_window_returns_witness :
  models.Ended scenario.expired 20 = true
  /\ exists w',
       step (LRecv 0 20) (scenario.w_looping scenario.expired false) = Ok tt w'
       /\ calls w' = calls (scenario.w_looping scenario.expired false)
       /\ runManager w' = runManager (scenario.w_looping scenario.expired false)
       /\ pc_of w' 0 = Some Returned
       /\ ch_of w' 0 = Some [scenario.req_42].
Proof.
  split; [reflexivity|].
  destruct (Subscribe_outside_window_returns 0
              {| g_initiator := mock.interest "svcA" "p1";
                 g_job := scenario.expired;
                 g_pc := AtSelect (scenario.sub_0 (mock.interest "svcA" "p1")) |}
              scenario.req_42 [scenario.req_42]
              (scenario.sub_0 (mock.interest "svcA" "p1")) 20%Z
              (scenario.w_looping scenario.expired false))
    as (w' & Hstep & Hcalls & _ & Hrm & _ & Hpc & Hch & _);
    [vm_compute; reflexivity | reflexivity | right; reflexivity |].
  exists w'. repeat split; assumption.
Defined.

(** C8 on an identifier that was never registered, next to a registered
    one. *)
Lemma RemoveJob_not_found_witness :
  exists w',
    Service.RemoveJob "ghost" (scenario.w_looping scenario.J1 false)
    = Ok (Some "JobSubscriber#RemoveJob: job ghost not found") w'
    /\ jobSubscriptions w'
       = jobSubscriptions (scenario.w_looping scenario.J1 false)
    /\ count_calls is_any_unsubscribe (calls w')
       = count_calls is_any_unsubscribe
           (calls (scenario.w_looping scenario.J1 false)).
Proof.
  destruct (RemoveJob_not_found "ghost" (scenario.w_looping scenario.J1 false))
    as (w' & Hrun & Hreg & _ & Hcount & _);
    [vm_compute; reflexivity |].
  exists w'. repeat split; assumption.
Defined.

(** C9 on a started tracker and on a new one. *)
Lemma Start_started_Stop_stopped_witness :
  IritaServiceTracker.Start scenario.w_started
  = Ok (Some "Irita service tracker already started") scenario.w_started
  /\ IritaServiceTracker.Stop (mock.fresh [] false)
     = Ok tt (mock.fresh [] false).
Proof.
  destruct (Start_started_Stop_stopped scenario.w_started (mock.fresh [] false))
    as (Hstart & Hstop & _); [reflexivity | reflexivity |].
  split; assumption.
Defined.

(** C10 on a new tracker and on one that holds a handle for the job. *)
Lemma RemoveJob_unguarded_AddJob_guarded_witness :
  IritaServiceTracker.AddJob scenario.J1 (mock.fresh [] false)
  = Ok tt (mock.fresh [] false)
  /\ IritaServiceTracker.RemoveJob "J"
       (set_started false (scenario.w_looping scenario.J1 false))
     = map_state (set_started false)
         (IritaServiceTracker.RemoveJob "J"
            (scenario.w_looping scenario.J1 false)).
Proof.
  destruct (RemoveJob_unguarded_AddJob_guarded "J" scenario.J1 false
              (scenario.w_looping scenario.J1 false) (mock.fresh [] false))
    as (Hadd & _ & Hflag & _); [reflexivity |].
  split; assumption.
Defined.

(** A stopped tracker still removes: the goroutine registered while the
    tracker was started, then the tracker was stopped, and [RemoveJob]
    deletes the entry and unsubscribes its handle. *)
Example RemoveJob_after_Stop :
  started scenario.w_stopped = false
  /\ exists w',
       IritaServiceTracker.RemoveJob "J" scenario.w_stopped = Ok None w'
       /\ jobSubscriptions w' = ∅
       /\ count_calls is_any_unsubscribe (calls w') = 1.
Proof.
  split; [vm_compute; reflexivity|].
  eexists. split; [vm_compute; reflexivity|].
  split; vm_compute; reflexivity.
Qed.

(** The end-to-end scenario: one matching record carrying [["req-42"]], a job
    inside its window; one lookup, one run created, one entry stashed under
    the run's identifier. *)
Example end_to_end :
  let w0 :=
    mock.after [LStart; LAddJob scenario.J1; LGo 0; LGo 0] (mock.fresh [] false)
  in
  let w :=
    mock.after
      [LBlock 0 [mock.record_for "svcA" "p1" scenario.ids_42]; LRecv 0 5] w0
  in
  calls w
  = calls w0
    ++ [CallQueryServiceRequest "req-42";
        CallCreate "J" (mock.interest "svcA" "p1");
        CallAddToMemory "run-of-J"
          {| store.RequestResponse := scenario.req_42;
             store.Provider := "p1" |}]
  /\ memory w !! "run-of-J"
     = Some {| store.RequestResponse := scenario.req_42;
               store.Provider := "p1" |}.
Proof. cbv zeta. split; vm_compute; reflexivity. Qed.

(** ** Further properties on the scenarios *)

(** X1 on a schedule that stops, starts and restarts the tracker. *)
Lemma tracker_panics_only_on_subscribe_failure_witness :
  is_panic
    (run scenario.restarts
       (NewIritaServiceTracker
          {| mock.opened := 0; mock.failing := [] |} [scenario.J1]
          {| mock.invocations := []; mock.fail_create := false |}))
  = false
  /\ exists w,
       run scenario.restarts
         (NewIritaServiceTracker
            {| mock.opened := 0; mock.failing := [] |} [scenario.J1]
            {| mock.invocations := []; mock.fail_create := false |})
       = Ok tt w.
Proof.
  split.
  - apply (tracker_panics_only_on_subscribe_failure scenario.restarts
             {| mock.opened := 0; mock.failing := [] |} [scenario.J1]
             {| mock.invocations := []; mock.fail_create := false |}).
    intros q c. reflexivity.
  - eexists. vm_compute. reflexivity.
Defined.

(** X2 on the client that refuses every subscription. *)
Lemma Subscribe_open_failure_panics_witness :
  exists w',
    step (IRITAClient0 := mock.down_ops) (LGo 0) scenario.w_down
    = Panic "event source unreachable" w'
    /\ run (IRITAClient0 := mock.down_ops) [LGo 0; LGo 0; LStop]
         scenario.w_down
       = Panic "event source unreachable" w'
    /\ jobSubscriptions w' = jobSubscriptions scenario.w_down.
Proof.
  destruct (Subscribe_open_failure_panics (IRITAClient0 := mock.down_ops) 0
              {| g_initiator := mock.interest "svcA" "p1";
                 g_job := scenario.J1; g_pc := AtSubscribe |}
              [] "event source unreachable" [LGo 0; LStop] scenario.w_down)
    as (w' & Hstep & Hrun & Hreg & _);
    [vm_compute; reflexivity | reflexivity | reflexivity |].
  exists w'. repeat split; assumption.
Defined.

(** X3 on a goroutine that returns and a tracker that is then stopped: the
    entry of the job stays in the registry and the gauge stays at 0. *)
Lemma registry_kept_without_RemoveJob_witness :
  numberJobSubscriptions
    (mock.after [LRecv 0 20; LStop]
       (scenario.w_looping scenario.expired false))
  = numberJobSubscriptions (scenario.w_looping scenario.expired false)
  /\ size (jobSubscriptions (scenario.w_looping scenario.expired false))
     <= size (jobSubscriptions
                (mock.after [LRecv 0 20; LStop]
                   (scenario.w_looping scenario.expired false))).
Proof.
  destruct (registry_kept_without_RemoveJob [LRecv 0 20; LStop]
              (scenario.w_looping scenario.expired false)
              (mock.after [LRecv 0 20; LStop]
                 (scenario.w_looping scenario.expired false)))
    as (Hgauge & _ & Hsize);
    [repeat constructor | vm_compute; reflexivity |].
  split; assumption.
Defined.


(** X8 on the job of the looping goroutine. *)
Lemma RemoveJob_leaves_goroutine_running_witness :
  exists e w1 w2,
    Service.RemoveJob "J" (scenario.w_looping scenario.J1 false) = Ok e w1
    /\ step (LRecv 0 5) w1 = Ok tt w2
    /\ pc_of w2 0
       = Some (AtSelect (scenario.sub_0 (mock.interest "svcA" "p1"))).
Proof.
  destruct (RemoveJob_leaves_goroutine_running 0
              {| g_initiator := mock.interest "svcA" "p1";
                 g_job := scenario.J1;
                 g_pc := AtSelect (scenario.sub_0 (mock.interest "svcA" "p1")) |}
              scenario.req_42 [scenario.req_42]
              (scenario.sub_0 (mock.interest "svcA" "p1")) 5%Z
              {| models.run_ID := "run-of-J" |}
              {| mock.invocations := [("J", mock.interest "svcA" "p1")];
                 mock.fail_create := false |}
              (scenario.w_looping scenario.J1 false))
    as (e & w1 & w2 & Hrun & _ & Hstep & _ & Hpc);
    [vm_compute; reflexivity | reflexivity | reflexivity
    | vm_compute; reflexivity |].
  exists e, w1, w2. repeat split; assumption.
Defined.

(** X9 on the job with two interests. *)
Lemma AddJob_only_starts_goroutines_witness :
  exists w',
    IritaServiceTracker.AddJob scenario.J2 scenario.w_started = Ok tt w'
    /\ length (goroutines w') = 0 + 2
    /\ calls w' = calls scenario.w_started.
Proof.
  destruct (AddJob_only_starts_goroutines scenario.J2 scenario.w_started)
    as (w' & Hrun & _ & Hlen & _ & Hcalls & _); [reflexivity|].
  exists w'. repeat split; assumption.
Defined.

(** X10 on a store with a job of one interest, a job of another kind and a
    job of two interests: three goroutines are started. *)
Lemma Start_stopped_starts_goroutines_witness :
  length (stored_spawned (store_jobs scenario.w_store)) = 3
  /\ exists w',
       IritaServiceTracker.Start scenario.w_store = Ok None w'
       /\ started w' = true
       /\ done w' = chan_open
       /\ goroutines w'
          = goroutines scenario.w_store
            ++ stored_spawned (store_jobs scenario.w_store).
Proof.
  split; [reflexivity|].
  destruct (Start_stopped_starts_goroutines scenario.w_store)
    as (w' & Hrun & Hst & Hdone & Hgs & _); [reflexivity|].
  exists w'. repeat split; assumption.
Defined.

(** X11 on the started tracker with its looping goroutine. *)
Lemma Stop_then_Start_restarts_witness :
  exists w1 w2,
    IritaServiceTracker.Stop (scenario.w_looping scenario.J1 false) = Ok tt w1
    /\ IritaServiceTracker.Start w1 = Ok None w2
    /\ done w2 = chan_open
    /\ jobSubscriptions w2
       = jobSubscriptions (scenario.w_looping scenario.J1 false).
Proof.
  destruct (Stop_then_Start_restarts (scenario.w_looping scenario.J1 false))
    as (w1 & w2 & Hstop & _ & Hstart & _ & Hdone & _ & Hreg);
    [vm_compute; reflexivity | vm_compute; reflexivity |].
  exists w1, w2. repeat split; assumption.
Defined.

(** X12 on the looping goroutine and a run manager that creates runs. *)
Lemma Subscribe_trigger_success_stashes_witness :
  exists w',
    step (LRecv 0 5) (scenario.w_looping scenario.J1 false) = Ok tt w'
    /\ memory w' !! "run-of-J"
       = Some {| store.RequestResponse := scenario.req_42;
                 store.Provider := "p1" |}
    /\ pc_of w' 0
       = Some (AtSelect (scenario.sub_0 (mock.interest "svcA" "p1")))
    /\ ch_of w' 0 = Some [scenario.req_42].
Proof.
  destruct (Subscribe_trigger_success_stashes 0
              {| g_initiator := mock.interest "svcA" "p1";
                 g_job := scenario.J1;
                 g_pc := AtSelect (scenario.sub_0 (mock.interest "svcA" "p1")) |}
              scenario.req_42 [scenario.req_42]
              (scenario.sub_0 (mock.interest "svcA" "p1")) 5%Z
              {| models.run_ID := "run-of-J" |}
              {| mock.invocations := [("J", mock.interest "svcA" "p1")];
                 mock.fail_create := false |}
              (scenario.w_looping scenario.J1 false))
    as (w' & Hstep & _ & Hmem & _ & Hpc & Hch & _);
    [vm_compute; reflexivity | reflexivity | reflexivity | reflexivity
    | vm_compute; reflexivity |].
  exists w'. repeat split; assumption.
Defined.

(** X14 on a record of another service and a record of another event
    type. *)
Lemma GetServiceResquest_no_match_witness :
  Service.GetServiceResquest scenario.other_records "svcA" "p1"
    (mock.fresh [] false)
  = Ok [] (mock.fresh [] false).
Proof.
  apply (GetServiceResquest_no_match (H := mock.extern)
           scenario.other_records "svcA" "p1" (mock.fresh [] false)).
  intros e He. apply list_elem_of_In in He. simpl in He.
  destruct He as [<-|[<-|[]]]; reflexivity.
Defined.

(** X15 on the goroutine that returned with a request still waiting. *)
Lemma Returned_goroutine_still_served_witness :
  exists w',
    step (LBlock 0 scenario.twice_42) scenario.w_returned = Ok tt w'
    /\ calls w'
       = calls scenario.w_returned
         ++ [CallQueryServiceRequest "req-42"; CallQueryServiceRequest "req-42"]
    /\ ch_of w' 0
       = Some [scenario.req_42; scenario.req_42; scenario.req_42]
    /\ step (LRecv 0 30) w' = Blocked.
Proof.
  destruct (Returned_goroutine_still_served 0
              {| g_initiator := mock.interest "svcA" "p1";
                 g_job := scenario.expired; g_pc := Returned |}
              [scenario.req_42] scenario.twice_42 scenario.w_returned)
    as (w' & Hstep & Hcalls & Hch & _ & Hblocked);
    [vm_compute; reflexivity | reflexivity |].
  exists w'. split; [exact Hstep|]. split; [exact Hcalls|].
  split; [exact Hch|]. apply Hblocked. reflexivity.
Defined.

(** X16 on a tracker whose one goroutine has registered. *)
Lemma registry_keys_are_registered_jobs_witness :
  is_Some (jobSubscriptions (scenario.w_looping scenario.J1 false) !! "J")
  /\ exists i g ch,
       goroutines (scenario.w_looping scenario.J1 false) !! i = Some (g, ch)
       /\ models.ID (g_job g) = "J"
       /\ past_registration (g_pc g) = true.
Proof.
  assert (Hkey : is_Some
            (jobSubscriptions (scenario.w_looping scenario.J1 false) !! "J"))
    by (vm_compute; eexists; reflexivity).
  split; [exact Hkey|].
  destruct (registry_keys_are_registered_jobs
              [LStart; LAddJob scenario.J1; LGo 0; LGo 0;
               LBlock 0 scenario.twice_42]
              {| mock.opened := 0; mock.failing := [] |} []
              {| mock.invocations := []; mock.fail_create := false |}
              (scenario.w_looping scenario.J1 false))
    as [Hkeys _]; [vm_compute; reflexivity|].
  exact (Hkeys "J" Hkey).
Defined.
